(** * terraform-provider-docker: the [docker_registry_image] resource

    A shallow embedding of [docker/resource_docker_registry_image_funcs.go]
    and [docker/resource_docker_registry_image.go]:

    - the Go library functions the resource calls ([strings], [strconv],
      [encoding/base64], [net/url], [net/http] headers) as executable
      functions on [string];
    - the side effects of the resource (requests sent with [client.Do], the
      push handed to the Docker engine, the process-wide
      [http.DefaultClient] and the environment) as a small state-and-event
      monad, run against an arbitrary deterministic outside world;
    - [removeRegistryImage], [resourceDockerRegistryImageDelete] and
      [pushImage], line by line;
    - the properties of the delete and push protocol. *)

From Stdlib Require Import ZArith List String Ascii Bool Lia.
From stdpp Require Import base gmap strings list sorting.

Local Open Scope Z_scope.

(** ** Go strings *)

Module strings.

(** [strings.HasPrefix(s, prefix)] *)
Definition HasPrefix (s prefix : string) : bool := String.prefix prefix s.

(** [strings.Contains(s, substr)] *)
Fixpoint Contains (s substr : string) : bool :=
  HasPrefix s substr ||
  match s with
  | EmptyString => false
  | String _ s' => Contains s' substr
  end.

(** [s[n:]] for [n <= len(s)] *)
Fixpoint drop (n : nat) (s : string) : string :=
  match n, s with
  | O, _ => s
  | S n', String _ s' => drop n' s'
  | S _, EmptyString => EmptyString
  end.

(** [strings.Replace(s, old, new, 1)]: the first occurrence only. *)
Fixpoint Replace1 (s old new : string) : string :=
  if HasPrefix s old then new +:+ drop (String.length old) s
  else match s with
       | EmptyString => EmptyString
       | String c s' => String c (Replace1 s' old new)
       end.

End strings.

(** ** Bytes of a string *)

Definition byte_of (c : ascii) : Z := Z.of_N (N_of_ascii c).
Definition char_of (n : Z) : ascii := ascii_of_N (Z.to_N n).

Definition in_range (lo hi : string) (c : ascii) : bool :=
  match lo, hi with
  | String l _, String h _ => (byte_of l <=? byte_of c) && (byte_of c <=? byte_of h)
  | _, _ => false
  end.

Definition is_digit : ascii -> bool := in_range "0" "9".
Definition is_lower : ascii -> bool := in_range "a" "z".
Definition is_upper : ascii -> bool := in_range "A" "Z".

Fixpoint mem_char (c : ascii) (set : string) : bool :=
  match set with
  | EmptyString => false
  | String x set' => Ascii.eqb c x || mem_char c set'
  end.

Fixpoint forall_chars (p : ascii -> bool) (s : string) : bool :=
  match s with
  | EmptyString => true
  | String c s' => p c && forall_chars p s'
  end.

(** ** strconv.Atoi *)

Module strconv.

(** [int] is 64 bits wide on the platforms the provider is built for. *)
Definition intSize : Z := 64.

Fixpoint digits (s : string) (acc : Z) : option Z :=
  match s with
  | EmptyString => Some acc
  | String c s' =>
      if is_digit c then digits s' (acc * 10 + (byte_of c - 48)) else None
  end.

(** [strconv.Atoi]: an optional sign, then at least one decimal digit and
    nothing else; a value that does not fit [int] is a range error.
    [None] stands for a non-nil [error]. *)
Definition Atoi (s : string) : option Z :=
  match s with
  | EmptyString => None
  | String c rest =>
      let neg := Ascii.eqb c "-" in
      let body := if neg || Ascii.eqb c "+" then rest else s in
      match body with
      | EmptyString => None
      | _ =>
          match digits body 0 with
          | None => None
          | Some n =>
              let v := if neg then - n else n in
              if (- 2 ^ (intSize - 1) <=? v) && (v <=? 2 ^ (intSize - 1) - 1)
              then Some v else None
          end
      end
  end.

End strconv.

(** ** encoding/base64 *)

Module base64.

Definition encodeStd : string :=
  "ABCDEFGHIJKLMNOPQRSTUVWXYZabcdefghijklmnopqrstuvwxyz0123456789+/".
Definition encodeURL : string :=
  "ABCDEFGHIJKLMNOPQRSTUVWXYZabcdefghijklmnopqrstuvwxyz0123456789-_".

Definition StdPadding : ascii := "=".

Definition sextet (alphabet : string) (n : Z) : ascii :=
  match String.get (Z.to_nat n) alphabet with
  | Some c => c
  | None => StdPadding
  end.

(** [Encoding.Encode]: three bytes become four characters; a rest of one
    or two bytes is padded. *)
Fixpoint encode (alphabet : string) (src : list Z) : string :=
  let e := sextet alphabet in
  match src with
  | [] => EmptyString
  | [a] =>
      String (e (Z.shiftr a 2))
        (String (e (Z.shiftl (Z.land a 3) 4))
           (String StdPadding (String StdPadding EmptyString)))
  | [a; b] =>
      String (e (Z.shiftr a 2))
        (String (e (Z.lor (Z.shiftl (Z.land a 3) 4) (Z.shiftr b 4)))
           (String (e (Z.shiftl (Z.land b 15) 2))
              (String StdPadding EmptyString)))
  | a :: b :: c :: rest =>
      String (e (Z.shiftr a 2))
        (String (e (Z.lor (Z.shiftl (Z.land a 3) 4) (Z.shiftr b 4)))
           (String (e (Z.lor (Z.shiftl (Z.land b 15) 2) (Z.shiftr c 6)))
              (String (e (Z.land c 63)) (encode alphabet rest))))
  end.

Definition bytes (s : string) : list Z := map byte_of (list_ascii_of_string s).

(** [base64.StdEncoding.EncodeToString([]byte(s))] *)
Definition StdEncoding_EncodeToString (s : string) : string :=
  encode encodeStd (bytes s).

(** [base64.URLEncoding.EncodeToString([]byte(s))] *)
Definition URLEncoding_EncodeToString (s : string) : string :=
  encode encodeURL (bytes s).

End base64.

(** ** net/url *)

Module url.

Definition upperhex : string := "0123456789ABCDEF".

Definition hexdigit (n : Z) : ascii :=
  match String.get (Z.to_nat n) upperhex with
  | Some c => c
  | None => "0"%char
  end.

(** [shouldEscape(c, encodeQueryComponent)]: letters, digits and [-_.~] are
    kept, every other byte is escaped. *)
Definition shouldEscape (c : ascii) : bool :=
  negb (is_lower c || is_upper c || is_digit c || mem_char c "-_.~").

(** [url.QueryEscape] *)
Fixpoint QueryEscape (s : string) : string :=
  match s with
  | EmptyString => EmptyString
  | String c s' =>
      if Ascii.eqb c " " then String "+" (QueryEscape s')
      else if shouldEscape c then
        String "%" (String (hexdigit (Z.shiftr (byte_of c) 4))
                      (String (hexdigit (Z.land (byte_of c) 15)) (QueryEscape s')))
      else String c (QueryEscape s')
  end.

(** [url.Values] is [map[string][]string]. *)
Abbreviation Values := (gmap string (list string)).

(** [Values.Set]: the key's values are replaced by the one given. *)
Definition Set_ (v : Values) (key value : string) : Values := <[key := [value]]> v.

Definition key_le (a b : string * list string) : Prop := String.leb a.1 b.1 = true.

#[global] Instance key_le_dec a b : Decision (key_le a b).
Proof. unfold key_le. apply _. Defined.

Fixpoint join_amp (parts : list string) : string :=
  match parts with
  | [] => EmptyString
  | [p] => p
  | p :: rest => p +:+ "&" +:+ join_amp rest
  end.

(** [Values.Encode]: [key=value] pairs, both query-escaped, sorted by key
    and joined by [&]. *)
Definition Encode (v : Values) : string :=
  join_amp
    (mbind (fun kv : string * list string =>
              map (fun x => QueryEscape kv.1 +:+ "=" +:+ QueryEscape x) kv.2)
           (merge_sort key_le (map_to_list v))).

End url.

(** ** Errors

    An [error] built by [fmt.Errorf] is kept as the call that built it, the
    format string and its operands; errors that come out of a library
    (transport, URL parsing, JSON decoding, the Docker engine) are opaque
    messages.  Where the resource builds the format string itself by
    concatenation ([fmt.Errorf("..." + resp.Status)]) the status text is
    part of [format] and there are no operands. *)

Inductive error : Type :=
| Errorf (format : string) (args : list operand)
| LibError (msg : string)
with operand : Type :=
| OpString (s : string)
| OpError (e : error).

(** A Go result pair [(v, err)]. *)
Inductive result (A : Type) : Type :=
| Ok (v : A)
| Err (err : error).
Arguments Ok {A} v.
Arguments Err {A} err.

(** ** fmt

    The text of an error, for the two verbs the resource's own format
    strings use: [%s], which prints the next operand (an error by its
    text), and [%%].  Everything else is outside the model and [None]:
    another verb or a flag, a [%s] with no operand left (Go prints
    [%!s(MISSING)]), a percent sign at the end ([%!(NOVERB)]), operands
    left over ([%!(EXTRA ...)]). *)

Module fmt.

Fixpoint Sprintf (format : string) (args : list string) : option string :=
  match format with
  | EmptyString => match args with [] => Some EmptyString | _ :: _ => None end
  | String c rest =>
      if Ascii.eqb c "%" then
        match rest with
        | String v rest' =>
            if Ascii.eqb v "s" then
              match args with
              | a :: args' => String.append a <$> Sprintf rest' args'
              | [] => None
              end
            else if Ascii.eqb v "%" then String "%" <$> Sprintf rest' args
            else None
        | EmptyString => None
        end
      else String c <$> Sprintf rest args
  end.

(** [err.Error()] *)
Fixpoint Error (err : error) : option string :=
  match err with
  | LibError msg => Some msg
  | Errorf format args =>
      let fix operands (args : list operand) : option (list string) :=
        match args with
        | [] => Some []
        | OpString s :: args' => cons s <$> operands args'
        | OpError e :: args' =>
            match Error e with
            | Some s => cons s <$> operands args'
            | None => None
            end
        end in
      match operands args with
      | Some texts => Sprintf format texts
      | None => None
      end
  end.

End fmt.

(** ** net/http *)

Module http.

Definition StatusOK : Z := 200.
Definition StatusAccepted : Z := 202.
Definition StatusUnauthorized : Z := 401.
Definition StatusNotFound : Z := 404.

(** [validHeaderFieldByte]: the token characters of RFC 7230. *)
Definition validHeaderFieldByte (c : ascii) : bool :=
  is_lower c || is_upper c || is_digit c || mem_char c "!#$%&'*+-.^_`|~".

Fixpoint canonical (upper : bool) (s : string) : string :=
  match s with
  | EmptyString => EmptyString
  | String c s' =>
      let c' :=
        if upper && is_lower c then char_of (byte_of c - 32)
        else if negb upper && is_upper c then char_of (byte_of c + 32)
        else c in
      String c' (canonical (Ascii.eqb c' "-") s')
  end.

(** [textproto.CanonicalMIMEHeaderKey]: a key that is not a token is left
    alone; otherwise the first letter and every letter after a dash are
    upper case and the others lower case. *)
Definition CanonicalMIMEHeaderKey (s : string) : string :=
  if forall_chars validHeaderFieldByte s then canonical true s else s.

(** [http.Header] is [map[string][]string]. *)
Abbreviation Header := (gmap string (list string)).

(** [Header.Get]: the first value of the canonical key, or the empty
    string. *)
Definition Get (h : Header) (key : string) : string :=
  match h !! CanonicalMIMEHeaderKey key with
  | Some (v :: _) => v
  | _ => EmptyString
  end.

(** [Header.Set]: the values of the canonical key are replaced. *)
Definition Set_ (h : Header) (key value : string) : Header :=
  <[CanonicalMIMEHeaderKey key := [value]]> h.

(** [*http.Request], as far as the resource builds it: no body. *)
Record Request : Type := mkRequest {
  Method : string;
  URL : string;
  ReqHeader : Header;
}.

(** [Request.SetBasicAuth] *)
Definition SetBasicAuth (r : Request) (username password : string) : Request :=
  {| Method := Method r;
     URL := URL r;
     ReqHeader :=
       Set_ (ReqHeader r) "Authorization"
         ("Basic " +:+ base64.StdEncoding_EncodeToString (username +:+ ":" +:+ password)) |}.

(** [req.Header.Set(key, value)] *)
Definition Request_Header_Set (r : Request) (key value : string) : Request :=
  {| Method := Method r; URL := URL r; ReqHeader := Set_ (ReqHeader r) key value |}.

(** [*http.Response]: [Body] is what [ioutil.ReadAll] makes of the body
    stream, the bytes or a read error. *)
Record Response : Type := mkResponse {
  StatusCode : Z;
  Status : string;
  Header_ : Header;
  Body : result string;
}.

(** [tls.Config], [http.Transport] and [http.Client], with the fields the
    resource sets.  A [nil] transport is [http.DefaultTransport], which
    verifies certificates. *)
Record tls_Config : Type := { InsecureSkipVerify : bool }.
Record Transport_ : Type := { TLSClientConfig : option tls_Config }.
Record Client : Type := { Transport : option Transport_ }.

Definition skips_verification (c : Client) : bool :=
  match Transport c with
  | Some {| TLSClientConfig := Some cfg |} => InsecureSkipVerify cfg
  | _ => false
  end.

End http.

(** ** encoding/json of [types.AuthConfig]

    [types.AuthConfig] of the Docker API: every field is a string tagged
    [omitempty]. *)

Module types.

Record AuthConfig : Type := {
  Username : string;
  Password : string;
  Auth : string;
  Email : string;
  ServerAddress : string;
  IdentityToken : string;
  RegistryToken : string;
}.

(** [types.AuthConfig{}] *)
Definition AuthConfig_zero : AuthConfig :=
  {| Username := EmptyString; Password := EmptyString; Auth := EmptyString;
     Email := EmptyString; ServerAddress := EmptyString;
     IdentityToken := EmptyString; RegistryToken := EmptyString |}.

(** [types.ImagePushOptions], the field the resource fills. *)
Record ImagePushOptions : Type := { RegistryAuth : string }.

End types.

Module json.

Definition dquote : ascii := "034"%char.

Definition quoted (body : string) : string :=
  String dquote (body +:+ String dquote EmptyString).

Section Marshal.

(** The string encoder of [encoding/json] (quotes and escapes). *)
Variable encodeString : string -> string.

(** One struct field tagged [json:"name,omitempty"]. *)
Definition field (name value : string) : list string :=
  if String.eqb value EmptyString then []
  else [quoted name +:+ ":" +:+ encodeString value].

Fixpoint join_comma (parts : list string) : string :=
  match parts with
  | [] => EmptyString
  | [p] => p
  | p :: rest => p +:+ "," +:+ join_comma rest
  end.

(** [json.Marshal(auth)] for [auth : types.AuthConfig]; it has no failing
    case for a struct of strings. *)
Definition Marshal_AuthConfig (a : types.AuthConfig) : result string :=
  Ok ("{" +:+
      join_comma
        (field "username" (types.Username a) ++
         field "password" (types.Password a) ++
         field "auth" (types.Auth a) ++
         field "email" (types.Email a) ++
         field "serveraddress" (types.ServerAddress a) ++
         field "identitytoken" (types.IdentityToken a) ++
         field "registrytoken" (types.RegistryToken a))
      +:+ "}").

End Marshal.

End json.

(** ** The process and its outside world

    The resource acts on the world in two ways: [client.Do(req)] on the
    process-wide [http.DefaultClient], and [client.ImagePush] on the Docker
    engine.  A program is the tree of these calls; each node keeps the
    client configuration the request is sent with. *)

Inductive Prog (A : Type) : Type :=
| Ret (a : A)
| HttpDo (c : http.Client) (req : http.Request) (k : result http.Response -> Prog A)
| ImagePush (image : string) (options : types.ImagePushOptions)
    (k : result string -> Prog A).
Arguments Ret {A} a.
Arguments HttpDo {A} c req k.
Arguments ImagePush {A} image options k.

Fixpoint Prog_bind {A B : Type} (p : Prog A) (f : A -> Prog B) : Prog B :=
  match p with
  | Ret a => f a
  | HttpDo c req k => HttpDo c req (fun r => Prog_bind (k r) f)
  | ImagePush image options k => ImagePush image options (fun r => Prog_bind (k r) f)
  end.

(** What the process keeps between calls: its environment and the
    [Transport] field of [http.DefaultClient] (the resource's [client] is a
    pointer to that one client). *)
Record Process : Type := {
  environ : gmap string string;
  DefaultClient : http.Client;
}.

Definition M (A : Type) : Type := Process -> Prog (A * Process).

Definition ret {A : Type} (a : A) : M A := fun p => Ret (a, p).

Definition bind {A B : Type} (m : M A) (f : A -> M B) : M B :=
  fun p => Prog_bind (m p) (fun ap => f ap.1 ap.2).

#[global] Instance M_ret : MRet M := @ret.
#[global] Instance M_bind : MBind M := fun A B f m => bind m f.

(** [os.LookupEnv(key)] *)
Definition os_LookupEnv (key : string) : M (option string) :=
  fun p => Ret (environ p !! key, p).

(** [client.Transport = t] for [client := http.DefaultClient] *)
Definition set_client_Transport (t : http.Transport_) : M unit :=
  fun p => Ret (tt, {| environ := environ p;
                       DefaultClient := {| http.Transport := Some t |} |}).

(** [client.Do(req)] for [client := http.DefaultClient] *)
Definition client_Do (req : http.Request) : M (result http.Response) :=
  fun p => HttpDo (DefaultClient p) req (fun r => Ret (r, p)).

(** [client.ImagePush(context.Background(), image, options)]; the result
    is the response stream, or an error. *)
Definition client_ImagePush (image : string) (options : types.ImagePushOptions)
  : M (result string) :=
  fun p => ImagePush image options (fun r => Ret (r, p)).

(** The calls a run makes, in order. *)
Inductive Event : Type :=
| EvHttp (c : http.Client) (req : http.Request)
| EvPush (image : string) (options : types.ImagePushOptions).

(** The outside world answers each call; the answer may depend on every
    call made before it. *)
Record World : Type := {
  roundTrip : list Event -> http.Client -> http.Request -> result http.Response;
  enginePush : list Event -> string -> types.ImagePushOptions -> result string;
}.

(** [run w p past]: the result of [p] and the calls it makes, in order,
    when [past] is what was called before. *)
Fixpoint run {A : Type} (w : World) (p : Prog A) (past : list Event) : A * list Event :=
  match p with
  | Ret a => (a, [])
  | HttpDo c req k =>
      let r := run w (k (roundTrip w past c req)) (past ++ [EvHttp c req]) in
      (r.1, EvHttp c req :: r.2)
  | ImagePush image options k =>
      let r := run w (k (enginePush w past image options)) (past ++ [EvPush image options]) in
      (r.1, EvPush image options :: r.2)
  end.

(** ** The resource: data *)

(** Modelled from the spec: the struct [parseImageOptions] returns is
    declared outside the two source files; the spec's ImageReference is
    {registry, repository, tag, digest}, of which the resource reads
    [Registry], [Repository] and [Tag]. *)
Record ImageOptions : Type := {
  Registry : string;
  Repository : string;
  Tag : string;
  Digest : string;
}.

(** Modelled from the spec: [AuthConfigs] is declared outside the two
    source files; the spec's CredentialTable maps a normalized registry
    address to credentials, and the resource reads it as
    [authConfig.Configs[address]] with values of [types.AuthConfig]. *)
Record AuthConfigs : Type := { Configs : gmap string types.AuthConfig }.

(** Modelled from the spec: [TokenResponse] is declared outside the two
    source files; the spec's BearerToken is {token: string}, read by the
    resource as [token.Token]. *)
Record TokenResponse : Type := { Token : string }.

(** [*ProviderConfig], the field the delete path reads.  The Docker client
    handle of the push path is the [World]'s [enginePush]. *)
Record ProviderConfig : Type := { AuthConfigs_ : AuthConfigs }.

(** [*schema.ResourceData]: the attributes of the resource's schema that the
    functions read, and the resource id. *)
Record ResourceData : Type := {
  name : string;
  sha256_digest : string;
  keep_remote : bool;
  Id : string;
}.

Definition SetId (d : ResourceData) (id : string) : ResourceData :=
  {| name := name d; sha256_digest := sha256_digest d;
     keep_remote := keep_remote d; Id := id |}.

Definition with_Registry (o : ImageOptions) (r : string) : ImageOptions :=
  {| Registry := r; Repository := Repository o; Tag := Tag o; Digest := Digest o |}.
Definition with_Repository (o : ImageOptions) (r : string) : ImageOptions :=
  {| Registry := Registry o; Repository := r; Tag := Tag o; Digest := Digest o |}.
Definition with_Tag (o : ImageOptions) (t : string) : ImageOptions :=
  {| Registry := Registry o; Repository := Repository o; Tag := t; Digest := Digest o |}.

(** ** The resource: functions *)

Section Resource.

(** Library functions whose inside is not modelled: whether [url.Parse]
    (inside [http.NewRequest]) rejects a URL, [json.Unmarshal] into a
    [TokenResponse], and the string encoder of [json.Marshal]. *)
Variable url_Parse_error : string -> option error.
Variable json_Unmarshal_TokenResponse : string -> result TokenResponse.
Variable json_encodeString : string -> string.

(** Functions of the package that are defined outside the two source
    files. *)
Variable parseImageOptions : string -> ImageOptions.
Variable normalizeRegistryAddress : string -> string.
Variable parseAuthHeader : string -> gmap string string.
Variable processStreamingOutput : string -> option error.

(** [http.NewRequest(method, url, nil)] for the methods [GET] and
    [DELETE]. *)
Definition http_NewRequest (method url : string) : result http.Request :=
  match url_Parse_error url with
  | Some err => Err err
  | None => Ok {| http.Method := method; http.URL := url; http.ReqHeader := ∅ |}
  end.

(** [m[key]] on a [map[string]string] *)
Definition index (m : gmap string string) (key : string) : string :=
  default EmptyString (m !! key).

(** [removeRegistryImage(registry, image, manifest, username, password)];
    [None] is a [nil] error. *)
Definition removeRegistryImage (registry image manifest username password : string)
  : M (option error) :=
  env ← os_LookupEnv "TF_ACC";
  match env with
  | Some env =>
      match strconv.Atoi env with
      | Some i =>
          if 1 <=? i
          then set_client_Transport
                 {| http.TLSClientConfig := Some {| http.InsecureSkipVerify := true |} |}
          else mret tt
      | None => mret tt
      end
  | None => mret tt
  end ;;
  match http_NewRequest "DELETE"
          ("https://" +:+ registry +:+ "/v2/" +:+ image +:+ "/manifests/" +:+ manifest) with
  | Err err => mret (Some (Errorf "Error creating registry request: %s" [OpError err]))
  | Ok req =>
      let req :=
        if negb (String.eqb username EmptyString)
        then http.SetBasicAuth req username password else req in
      resp ← client_Do req;
      match resp with
      | Err err => mret (Some (Errorf "Error during registry request: %s" [OpError err]))
      | Ok resp =>
          if http.StatusCode resp =? http.StatusAccepted then mret None
          else if http.StatusCode resp =? http.StatusNotFound then mret None
          else if http.StatusCode resp =? http.StatusUnauthorized then
            if strings.HasPrefix (http.Get (http.Header_ resp) "www-authenticate") "Bearer"
            then
              let auth := parseAuthHeader (http.Get (http.Header_ resp) "www-authenticate") in
              let params : url.Values := ∅ in
              let params := url.Set_ params "service" (index auth "service") in
              let params := url.Set_ params "scope" (index auth "scope") in
              match http_NewRequest "GET" (index auth "realm" +:+ "?" +:+ url.Encode params) with
              | Err err =>
                  mret (Some (Errorf "Error creating registry request: %s" [OpError err]))
              | Ok tokenRequest =>
                  let tokenRequest :=
                    if negb (String.eqb username EmptyString)
                    then http.SetBasicAuth tokenRequest username password
                    else tokenRequest in
                  tokenResponse ← client_Do tokenRequest;
                  match tokenResponse with
                  | Err err =>
                      mret (Some (Errorf "Error during registry request: %s" [OpError err]))
                  | Ok tokenResponse =>
                      if negb (http.StatusCode tokenResponse =? http.StatusOK)
                      then mret (Some (Errorf ("Got bad response from registry: "
                                               +:+ http.Status tokenResponse) []))
                      else
                        match http.Body tokenResponse with
                        | Err err =>
                            mret (Some (Errorf "Error reading response body: %s" [OpError err]))
                        | Ok body =>
                            match json_Unmarshal_TokenResponse body with
                            | Err err =>
                                mret (Some (Errorf "Error parsing OAuth token response: %s"
                                              [OpError err]))
                            | Ok token =>
                                let req :=
                                  http.Request_Header_Set req "Authorization"
                                    ("Bearer " +:+ Token token) in
                                digestResponse ← client_Do req;
                                match digestResponse with
                                | Err err =>
                                    mret (Some (Errorf "Error during registry request: %s"
                                                  [OpError err]))
                                | Ok digestResponse =>
                                    if negb (http.StatusCode digestResponse =? http.StatusOK)
                                    then mret (Some (Errorf ("Got bad response from registry: "
                                                             +:+ http.Status digestResponse) []))
                                    else mret None
                                end
                            end
                        end
                  end
              end
            else mret (Some (Errorf ("Bad credentials: " +:+ http.Status resp) []))
          else mret (Some (Errorf ("Got bad response from registry: " +:+ http.Status resp) []))
      end
  end.

(** Lines 44 to 65 of [resourceDockerRegistryImageDelete]: the options
    parsed from the resource's name, with the default registry, the
    [library/] prefix and the default tag filled in. *)
Definition deleteOptions (image : string) : ImageOptions :=
  let pullOpts := parseImageOptions image in
  let pullOpts :=
    if String.eqb (Registry pullOpts) EmptyString
    then with_Registry pullOpts "registry.hub.docker.com"
    else with_Repository pullOpts
           (strings.Replace1 (Repository pullOpts) (Registry pullOpts +:+ "/") EmptyString) in
  let pullOpts :=
    if String.eqb (Registry pullOpts) "registry.hub.docker.com"
    then if negb (strings.Contains (Repository pullOpts) "/")
         then with_Repository pullOpts ("library/" +:+ Repository pullOpts)
         else pullOpts
    else pullOpts in
  if String.eqb (Tag pullOpts) EmptyString then with_Tag pullOpts "latest" else pullOpts.

(** Lines 67 to 73: the credentials of the registry, empty when the table
    has no entry under the normalized address. *)
Definition deleteCredentials (authConfig : AuthConfigs) (pullOpts : ImageOptions)
  : string * string :=
  match Configs authConfig !! normalizeRegistryAddress (Registry pullOpts) with
  | Some auth => (types.Username auth, types.Password auth)
  | None => (EmptyString, EmptyString)
  end.

(** [resourceDockerRegistryImageDelete(d, meta)]: the error and the
    resource data as the call leaves it. *)
Definition resourceDockerRegistryImageDelete (d : ResourceData) (meta : ProviderConfig)
  : M (option error * ResourceData) :=
  if keep_remote d then mret (None, d)
  else
    let pullOpts := deleteOptions (name d) in
    let digest := sha256_digest d in
    let authConfig := AuthConfigs_ meta in
    let '(username, password) := deleteCredentials authConfig pullOpts in
    err ← removeRegistryImage (Registry pullOpts) (Repository pullOpts) digest
            username password;
    match err with
    | Some err => mret (Some (Errorf "Unable to remove Docker image: %s" [OpError err]), d)
    | None => mret (None, SetId d EmptyString)
    end.

(** Lines 87 to 98 of [pushImage]: the auth config of the image's
    registry, or of the public Docker hub when the name has none. *)
Definition pushAuth (authConfig : AuthConfigs) (image : string) : types.AuthConfig :=
  let pullOpts := parseImageOptions image in
  let auth := types.AuthConfig_zero in
  if negb (String.eqb (Registry pullOpts) EmptyString)
  then match Configs authConfig !! normalizeRegistryAddress (Registry pullOpts) with
       | Some authConfig => authConfig
       | None => auth
       end
  else match Configs authConfig !! "https://registry.hub.docker.com" with
       | Some authConfig => authConfig
       | None => auth
       end.

(** [pushImage(client, authConfig, image)] *)
Definition pushImage (authConfig : AuthConfigs) (image : string) : M (option error) :=
  let auth := pushAuth authConfig image in
  match json.Marshal_AuthConfig json_encodeString auth with
  | Err err => mret (Some (Errorf "error creating auth config: %s" [OpError err]))
  | Ok encodedJSON =>
      out ← client_ImagePush image
              {| types.RegistryAuth := base64.URLEncoding_EncodeToString encodedJSON |};
      match out with
      | Err err =>
          mret (Some (Errorf "error pulling image %s: %s" [OpString image; OpError err]))
      | Ok out => mret (processStreamingOutput out)
      end
  end.

End Resource.

(** ** The helpers of the package, from the spec *)

(** [cut c s]: the text before and after the first [c] in [s]. *)
Fixpoint cut (c : ascii) (s : string) : option (string * string) :=
  match s with
  | EmptyString => None
  | String x s' =>
      if Ascii.eqb x c then Some (EmptyString, s')
      else match cut c s' with
           | Some (before, after) => Some (String x before, after)
           | None => None
           end
  end.

Definition looks_like_registry (segment : string) : bool :=
  mem_char "." segment || mem_char ":" segment || String.eqb segment "localhost".

(** Modelled from the spec: [parseImageOptions] is defined outside the two
    source files.  Spec 4.1: a leading segment is treated as a registry
    only if it contains a dot, a colon, or equals localhost, otherwise the
    whole string is repository path; a trailing [@sha256:...] suffix is a
    digest, a trailing [:tag] suffix (after the registry, so that a port is
    no tag) is a tag; spec 3: the default tag is [latest] when absent and no
    digest is given.  The call sites take one value and no error, so the
    digest suffix is split off as it stands. *)
Definition spec_parseImageOptions (image : string) : ImageOptions :=
  let '(registry, path) :=
    match cut "/" image with
    | Some (segment, rest) =>
        if looks_like_registry segment then (segment, rest) else (EmptyString, image)
    | None => (EmptyString, image)
    end in
  let '(path, digest) :=
    match cut "@" path with
    | Some (before, after) => (before, after)
    | None => (path, EmptyString)
    end in
  let '(repository, tag) :=
    match cut ":" path with
    | Some (before, after) => (before, after)
    | None =>
        (path, if String.eqb digest EmptyString then "latest" else EmptyString)
    end in
  {| Registry := registry; Repository := repository; Tag := tag; Digest := digest |}.

(** Modelled from the spec: [normalizeRegistryAddress] is defined outside
    the two source files.  Spec 4.1: an empty registry is mapped to the
    canonical default-registry host; any other registry is prefixed with an
    explicit HTTPS scheme if no scheme is present, because the credential
    table keys are always scheme-qualified. *)
Definition spec_normalizeRegistryAddress (address : string) : string :=
  if String.eqb address EmptyString then "https://registry.hub.docker.com"
  else if strings.Contains address "://" then address
  else "https://" +:+ address.

(** ** What the properties speak of *)

(** The transport the acceptance tests install. *)
Definition insecureClient : http.Client :=
  {| http.Transport :=
       Some {| http.TLSClientConfig := Some {| http.InsecureSkipVerify := true |} |} |}.

(** [TF_ACC] is set and parses as an integer that is at least 1. *)
Definition acceptance_tests (env : gmap string string) : Prop :=
  exists s i, env !! "TF_ACC" = Some s /\ strconv.Atoi s = Some i /\ 1 <= i.

(** [TF_ACC] is unset, or is no integer, or is an integer below 1. *)
Definition no_acceptance_tests (env : gmap string string) : Prop :=
  env !! "TF_ACC" = None \/
  (exists s, env !! "TF_ACC" = Some s /\ strconv.Atoi s = None) \/
  (exists s i, env !! "TF_ACC" = Some s /\ strconv.Atoi s = Some i /\ i < 1).

(** The process as the first lines of [removeRegistryImage] leave it. *)
Definition with_client (p : Process) (c : http.Client) : Process :=
  {| environ := environ p; DefaultClient := c |}.

(** Every request of a trace went out through client [c]. *)
Definition sent_with (c : http.Client) (tr : list Event) : Prop :=
  forall c' req, In (EvHttp c' req) tr -> c' = c.

(** The value of the [Authorization] header that [SetBasicAuth] writes. *)
Definition basicAuthorization (username password : string) : string :=
  "Basic " +:+ base64.StdEncoding_EncodeToString (username +:+ ":" +:+ password).

(** The [Authorization] values a request of the delete protocol is built
    with: none for an empty user name. *)
Definition expectedAuthorization (username password : string) : option (list string) :=
  if String.eqb username EmptyString then None
  else Some [basicAuthorization username password].

(** The client the requests of a delete call go out through: lines 117 to
    130 of [removeRegistryImage] as a function of the process. *)
Definition chosenClient (p : Process) : http.Client :=
  match environ p !! "TF_ACC" with
  | Some env =>
      match strconv.Atoi env with
      | Some i => if 1 <=? i then insecureClient else DefaultClient p
      | None => DefaultClient p
      end
  | None => DefaultClient p
  end.

(** ** The delete protocol as a relation

    The runs of one delete call, by the state in which they end: the
    initial request, the token request of the bearer challenge, and the
    retried request. *)

Section Protocol.

Variable url_Parse_error : string -> option error.
Variable json_Unmarshal_TokenResponse : string -> result TokenResponse.
Variable parseAuthHeader : string -> gmap string string.

Variable w : World.
Variable c : http.Client.
Variables registry image manifest username password : string.

Definition deleteURL : string :=
  "https://" +:+ registry +:+ "/v2/" +:+ image +:+ "/manifests/" +:+ manifest.

Definition withCredentials (req : http.Request) : http.Request :=
  if String.eqb username EmptyString then req
  else http.SetBasicAuth req username password.

Definition initialRequest : http.Request :=
  withCredentials
    {| http.Method := "DELETE"; http.URL := deleteURL; http.ReqHeader := ∅ |}.

(** The URL of the token endpoint named by a challenge header. *)
Definition tokenURL (challenge : string) : string :=
  let auth := parseAuthHeader challenge in
  index auth "realm" +:+ "?" +:+
  url.Encode (<["scope" := [index auth "scope"]]>
                (<["service" := [index auth "service"]]> ∅)).

Definition tokenRequest (challenge : string) : http.Request :=
  withCredentials
    {| http.Method := "GET"; http.URL := tokenURL challenge; http.ReqHeader := ∅ |}.

Definition retryRequest (token : TokenResponse) : http.Request :=
  http.Request_Header_Set initialRequest "Authorization" ("Bearer " +:+ Token token).

Definition challengeOf (resp : http.Response) : string :=
  http.Get (http.Header_ resp) "www-authenticate".

(** Retrying: the DELETE is sent again with the bearer token. *)
Inductive RetryRun (past : list Event) (token : TokenResponse)
  : option error -> list Event -> Prop :=
| retry_transport err :
    roundTrip w past c (retryRequest token) = Err err ->
    RetryRun past token
      (Some (Errorf "Error during registry request: %s" [OpError err]))
      [EvHttp c (retryRequest token)]
| retry_rejected resp :
    roundTrip w past c (retryRequest token) = Ok resp ->
    http.StatusCode resp <> http.StatusOK ->
    RetryRun past token
      (Some (Errorf ("Got bad response from registry: " +:+ http.Status resp) []))
      [EvHttp c (retryRequest token)]
| retry_ok resp :
    roundTrip w past c (retryRequest token) = Ok resp ->
    http.StatusCode resp = http.StatusOK ->
    RetryRun past token None [EvHttp c (retryRequest token)].

(** The bearer challenge: the token is fetched, then the DELETE retried. *)
Inductive BearerRun (past : list Event) (challenge : string)
  : option error -> list Event -> Prop :=
| bearer_bad_url err :
    url_Parse_error (tokenURL challenge) = Some err ->
    BearerRun past challenge
      (Some (Errorf "Error creating registry request: %s" [OpError err])) []
| bearer_transport err :
    url_Parse_error (tokenURL challenge) = None ->
    roundTrip w past c (tokenRequest challenge) = Err err ->
    BearerRun past challenge
      (Some (Errorf "Error during registry request: %s" [OpError err]))
      [EvHttp c (tokenRequest challenge)]
| bearer_fetch_failed resp :
    url_Parse_error (tokenURL challenge) = None ->
    roundTrip w past c (tokenRequest challenge) = Ok resp ->
    http.StatusCode resp <> http.StatusOK ->
    BearerRun past challenge
      (Some (Errorf ("Got bad response from registry: " +:+ http.Status resp) []))
      [EvHttp c (tokenRequest challenge)]
| bearer_read_failed resp err :
    url_Parse_error (tokenURL challenge) = None ->
    roundTrip w past c (tokenRequest challenge) = Ok resp ->
    http.StatusCode resp = http.StatusOK ->
    http.Body resp = Err err ->
    BearerRun past challenge
      (Some (Errorf "Error reading response body: %s" [OpError err]))
      [EvHttp c (tokenRequest challenge)]
| bearer_parse_failed resp body err :
    url_Parse_error (tokenURL challenge) = None ->
    roundTrip w past c (tokenRequest challenge) = Ok resp ->
    http.StatusCode resp = http.StatusOK ->
    http.Body resp = Ok body ->
    json_Unmarshal_TokenResponse body = Err err ->
    BearerRun past challenge
      (Some (Errorf "Error parsing OAuth token response: %s" [OpError err]))
      [EvHttp c (tokenRequest challenge)]
| bearer_retry resp body token res tr :
    url_Parse_error (tokenURL challenge) = None ->
    roundTrip w past c (tokenRequest challenge) = Ok resp ->
    http.StatusCode resp = http.StatusOK ->
    http.Body resp = Ok body ->
    json_Unmarshal_TokenResponse body = Ok token ->
    RetryRun (past ++ [EvHttp c (tokenRequest challenge)]) token res tr ->
    BearerRun past challenge res (EvHttp c (tokenRequest challenge) :: tr).

(** Initial: the DELETE is sent with basic auth, or with none. *)
Inductive DeleteRun (past : list Event) : option error -> list Event -> Prop :=
| delete_bad_url err :
    url_Parse_error deleteURL = Some err ->
    DeleteRun past (Some (Errorf "Error creating registry request: %s" [OpError err])) []
| delete_transport err :
    url_Parse_error deleteURL = None ->
    roundTrip w past c initialRequest = Err err ->
    DeleteRun past (Some (Errorf "Error during registry request: %s" [OpError err]))
      [EvHttp c initialRequest]
| delete_accepted resp :
    url_Parse_error deleteURL = None ->
    roundTrip w past c initialRequest = Ok resp ->
    http.StatusCode resp = http.StatusAccepted ->
    DeleteRun past None [EvHttp c initialRequest]
| delete_not_found resp :
    url_Parse_error deleteURL = None ->
    roundTrip w past c initialRequest = Ok resp ->
    http.StatusCode resp = http.StatusNotFound ->
    DeleteRun past None [EvHttp c initialRequest]
| delete_bad_credentials resp :
    url_Parse_error deleteURL = None ->
    roundTrip w past c initialRequest = Ok resp ->
    http.StatusCode resp = http.StatusUnauthorized ->
    strings.HasPrefix (challengeOf resp) "Bearer" = false ->
    DeleteRun past (Some (Errorf ("Bad credentials: " +:+ http.Status resp) []))
      [EvHttp c initialRequest]
| delete_rejected resp :
    url_Parse_error deleteURL = None ->
    roundTrip w past c initialRequest = Ok resp ->
    http.StatusCode resp <> http.StatusAccepted ->
    http.StatusCode resp <> http.StatusNotFound ->
    http.StatusCode resp <> http.StatusUnauthorized ->
    DeleteRun past
      (Some (Errorf ("Got bad response from registry: " +:+ http.Status resp) []))
      [EvHttp c initialRequest]
| delete_bearer resp res tr :
    url_Parse_error deleteURL = None ->
    roundTrip w past c initialRequest = Ok resp ->
    http.StatusCode resp = http.StatusUnauthorized ->
    strings.HasPrefix (challengeOf resp) "Bearer" = true ->
    BearerRun (past ++ [EvHttp c initialRequest]) (challengeOf resp) res tr ->
    DeleteRun past res (EvHttp c initialRequest :: tr).

End Protocol.

(** [describes D p' r]: the run [r] left the process as [p'], and its result
    and calls are related by [D]. *)
Definition describes {A : Type} (D : A -> list Event -> Prop) (p' : Process)
    (r : (A * Process) * list Event) : Prop :=
  r.1.2 = p' /\ D r.1.1 r.2.

(** The credentials the table holds under a key. *)
Definition credentialsAt (authConfig : AuthConfigs) (key : string) : string * string :=
  match Configs authConfig !! key with
  | Some auth => (types.Username auth, types.Password auth)
  | None => (EmptyString, EmptyString)
  end.

(** ** Stand-ins for concrete runs

    A world that answers the n-th call with the n-th entry of a script, and
    the simplest library functions: every URL parses, the token is the body
    as it stands, and every challenge names the Docker hub's token
    service. *)

Definition scripted (answers : list (result http.Response)) : World :=
  {| roundTrip := fun past _ _ =>
       nth (length past) answers (Err (LibError "connection refused"));
     enginePush := fun _ _ _ => Ok EmptyString |}.

Definition every_url_parses : string -> option error := fun _ => None.

Definition token_is_body : string -> result TokenResponse :=
  fun body => Ok {| Token := body |}.

Definition hub_challenge : string -> gmap string string :=
  fun _ => {[ "realm" := "https://auth.docker.io/token";
              "service" := "registry.docker.io";
              "scope" := "repository:library/consul:*" ]}.

Definition response (code : Z) (status : string) (challenge : option string)
    (body : string) : result http.Response :=
  Ok {| http.StatusCode := code;
        http.Status := status;
        http.Header_ :=
          match challenge with
          | Some v => {[ "Www-Authenticate" := [v] ]}
          | None => ∅
          end;
        http.Body := Ok body |}.

Definition unauthorized_bearer : result http.Response :=
  response 401 "401 Unauthorized" (Some "Bearer realm=auth") EmptyString.

(** A registry that challenges, a token service that answers with the
    token [t0k3n], and the registry's answer to the retried request. *)
Definition bearer_script (code : Z) (status : string) : list (result http.Response) :=
  [unauthorized_bearer;
   response 200 "200 OK" None "t0k3n";
   response code status None EmptyString].

Definition strictClient : http.Client := {| http.Transport := None |}.

Definition process_of (env : gmap string string) : Process :=
  {| environ := env; DefaultClient := strictClient |}.

(** ** The resource: lifecycle and schema *)

(** [helper/schema] of Terraform, as far as the resource declares it. *)
Module schema.

Inductive ValueType : Type :=
| TypeInvalid | TypeBool | TypeInt | TypeFloat | TypeString | TypeList | TypeMap | TypeSet.

(** The set functions of the package; the resource names [schema.HashString]. *)
Inductive SchemaSetFunc : Type := HashString.

(** [schema.Schema], the fields the resource writes; the others are zero. *)
#[local] Unset Elimination Schemes.
Inductive Schema : Type :=
| mkSchema (Type_ : ValueType) (Required Optional Computed ForceNew : bool)
    (Elem : option Schema) (Set_ : option SchemaSetFunc).
#[local] Set Elimination Schemes.

Definition Type_ (s : Schema) : ValueType := let 'mkSchema t _ _ _ _ _ _ := s in t.
Definition Required (s : Schema) : bool := let 'mkSchema _ r _ _ _ _ _ := s in r.
Definition Optional (s : Schema) : bool := let 'mkSchema _ _ o _ _ _ _ := s in o.
Definition Computed (s : Schema) : bool := let 'mkSchema _ _ _ c _ _ _ := s in c.
Definition ForceNew (s : Schema) : bool := let 'mkSchema _ _ _ _ f _ _ := s in f.
Definition Elem (s : Schema) : option Schema := let 'mkSchema _ _ _ _ _ e _ := s in e.

(** [schema.Resource]: the four lifecycle functions and the attributes. *)
Record Resource : Type := {
  Create : ResourceData -> ProviderConfig -> M (option error * ResourceData);
  Read : ResourceData -> ProviderConfig -> M (option error * ResourceData);
  Update : ResourceData -> ProviderConfig -> M (option error * ResourceData);
  Delete : ResourceData -> ProviderConfig -> M (option error * ResourceData);
  Schema_ : gmap string Schema;
}.

End schema.

Section Lifecycle.

Variable url_Parse_error : string -> option error.
Variable json_Unmarshal_TokenResponse : string -> result TokenResponse.
Variable json_encodeString : string -> string.
Variable parseImageOptions : string -> ImageOptions.
Variable normalizeRegistryAddress : string -> string.
Variable parseAuthHeader : string -> gmap string string.
Variable processStreamingOutput : string -> option error.

(** [dataSourceDockerRegistryImageRead(d, meta)] is defined outside the two
    source files: any action on the resource data. *)
Variable dataSourceDockerRegistryImageRead :
  ResourceData -> ProviderConfig -> M (option error * ResourceData).

(** [resourceDockerRegistryImageCreate(d, meta)] *)
Definition resourceDockerRegistryImageCreate (d : ResourceData) (meta : ProviderConfig)
  : M (option error * ResourceData) :=
  let imageName := name d in
  err ← pushImage json_encodeString parseImageOptions normalizeRegistryAddress
          processStreamingOutput (AuthConfigs_ meta) imageName;
  match err with
  | Some err => mret (Some (Errorf "Unable to push Docker image: %s" [OpError err]), d)
  | None => dataSourceDockerRegistryImageRead d meta
  end.

(** [resourceDockerRegistryImageUpdate(d, meta)] *)
Definition resourceDockerRegistryImageUpdate (d : ResourceData) (meta : ProviderConfig)
  : M (option error * ResourceData) :=
  dataSourceDockerRegistryImageRead d meta.

(** [resourceDockerRegistryImage()] *)
Definition resourceDockerRegistryImage : schema.Resource :=
  {| schema.Create := resourceDockerRegistryImageCreate;
     schema.Read := dataSourceDockerRegistryImageRead;
     schema.Update := resourceDockerRegistryImageUpdate;
     schema.Delete :=
       resourceDockerRegistryImageDelete url_Parse_error json_Unmarshal_TokenResponse
         parseImageOptions normalizeRegistryAddress parseAuthHeader;
     schema.Schema_ :=
       {[ "name" :=
            schema.mkSchema schema.TypeString true false false true None None;
          "sha256_digest" :=
            schema.mkSchema schema.TypeString false false true false None None;
          "push_triggers" :=
            schema.mkSchema schema.TypeSet false true false true
              (Some (schema.mkSchema schema.TypeString false false false false None None))
              (Some schema.HashString);
          "keep_remote" :=
            schema.mkSchema schema.TypeBool false true false false None None ]} |}.

End Lifecycle.

(** The attributes the lifecycle functions read with [d.Get], and the type
    each value is asserted to have. *)
Definition attributes_read : list (string * schema.ValueType) :=
  [("name", schema.TypeString);
   ("sha256_digest", schema.TypeString);
   ("keep_remote", schema.TypeBool)].

(** What a delete makes of the run of its [removeRegistryImage] call
    (lines 75 to 81): the error wrapped, or the id cleared. *)
Definition removalOutcome (d : ResourceData) (r : (option error * Process) * list Event)
  : ((option error * ResourceData) * Process) * list Event :=
  ((match r.1.1 with
    | Some err => (Some (Errorf "Unable to remove Docker image: %s" [OpError err]), d)
    | None => (None, SetId d EmptyString)
    end, r.1.2), r.2).

(** * Properties *)

(** ** The library models on known values *)

Example base64_std_user_pass :
  base64.StdEncoding_EncodeToString "Aladdin:open sesame" = "QWxhZGRpbjpvcGVuIHNlc2FtZQ==".
Proof. reflexivity. Qed.

Example base64_url_high_bytes :
  base64.encode base64.encodeURL [251; 255; 190] = "-_--".
Proof. reflexivity. Qed.

Example atoi_examples :
  strconv.Atoi "1" = Some 1 /\ strconv.Atoi "+7" = Some 7 /\
  strconv.Atoi "-3" = Some (-3) /\ strconv.Atoi "true" = None /\
  strconv.Atoi "-" = None /\ strconv.Atoi " 1" = None /\
  strconv.Atoi "9223372036854775807" = Some 9223372036854775807 /\
  strconv.Atoi "9223372036854775808" = None.
Proof. repeat split; reflexivity. Qed.

Example replace_examples :
  strings.Replace1 "quay.io/ns/quay.io/x" "quay.io/" EmptyString = "ns/quay.io/x" /\
  strings.Replace1 "library/consul" "quay.io/" EmptyString = "library/consul".
Proof. split; reflexivity. Qed.

Example canonical_keys :
  http.CanonicalMIMEHeaderKey "www-authenticate" = "Www-Authenticate" /\
  http.CanonicalMIMEHeaderKey "Authorization" = "Authorization" /\
  http.CanonicalMIMEHeaderKey "not a token" = "not a token".
Proof. repeat split; reflexivity. Qed.

Example query_escape_scope :
  url.QueryEscape "repository:library/consul:* x" = "repository%3Alibrary%2Fconsul%3A%2A+x".
Proof. reflexivity. Qed.

Example token_url_of_hub_challenge :
  tokenURL hub_challenge "Bearer realm=auth"
  = "https://auth.docker.io/token?scope=repository%3Alibrary%2Fconsul%3A%2A&service=registry.docker.io".
Proof. vm_compute. reflexivity. Qed.

Example delete_url_of_consul :
  deleteURL "registry.hub.docker.com" "library/consul" "sha256:0a"
  = "https://registry.hub.docker.com/v2/library/consul/manifests/sha256:0a".
Proof. reflexivity. Qed.

Example basic_authorization_of_alice :
  http.ReqHeader (initialRequest "registry.hub.docker.com" "library/consul" "sha256:0a"
                    "alice" "secret") !! "Authorization"
  = Some ["Basic YWxpY2U6c2VjcmV0"].
Proof. vm_compute. reflexivity. Qed.

Example spec_parse_examples :
  spec_parseImageOptions "consul"
  = {| Registry := EmptyString; Repository := "consul"; Tag := "latest";
       Digest := EmptyString |} /\
  spec_parseImageOptions "registry.hub.docker.com/library/consul"
  = {| Registry := "registry.hub.docker.com"; Repository := "library/consul";
       Tag := "latest"; Digest := EmptyString |} /\
  spec_parseImageOptions "localhost:5000/repo:1.2"
  = {| Registry := "localhost:5000"; Repository := "repo"; Tag := "1.2";
       Digest := EmptyString |} /\
  spec_parseImageOptions "ns/repo"
  = {| Registry := EmptyString; Repository := "ns/repo"; Tag := "latest";
       Digest := EmptyString |}.
Proof. repeat split; reflexivity. Qed.

(** ** The text of the errors *)

Lemma Sprintf_plain (s : string) :
  mem_char "%" s = false -> fmt.Sprintf s [] = Some s.
Proof.
  induction s as [|c s IH]; [done|]. cbn [mem_char fmt.Sprintf].
  rewrite (Ascii.eqb_sym "%" c). destruct (Ascii.eqb c "%"); [done|].
  intros Hs. by rewrite IH.
Qed.

Lemma Sprintf_literal (c : ascii) (s : string) (args : list string) :
  Ascii.eqb c "%" = false ->
  fmt.Sprintf (String c s) args = String c <$> fmt.Sprintf s args.
Proof. intros Hc. cbn [fmt.Sprintf]. by rewrite Hc. Qed.

Lemma Sprintf_append (prefix s : string) (args : list string) :
  mem_char "%" prefix = false ->
  fmt.Sprintf (prefix +:+ s) args = String.append prefix <$> fmt.Sprintf s args.
Proof.
  induction prefix as [|c prefix IH]; cbn [mem_char].
  - intros _. change (EmptyString +:+ s) with s. by destruct (fmt.Sprintf s args).
  - change (String c prefix +:+ s) with (String c (prefix +:+ s)).
    rewrite (Ascii.eqb_sym "%" c). destruct (Ascii.eqb c "%") eqn:Hc; [done|].
    intros Hp. rewrite Sprintf_literal, IH by done. by destruct (fmt.Sprintf s args).
Qed.

(** An error built as [fmt.Errorf(prefix + status)] reads [prefix + status]
    when neither holds a percent sign; a status text with one is taken for
    a verb. *)
Lemma status_error_text (prefix status : string) :
  mem_char "%" prefix = false ->
  mem_char "%" status = false ->
  fmt.Error (Errorf (prefix +:+ status) []) = Some (prefix +:+ status).
Proof.
  intros Hp Hs. cbn [fmt.Error]. rewrite Sprintf_append by done. by rewrite Sprintf_plain.
Qed.

(** Go prints [Bad credentials: 401 100%!(NOVERB)] here. *)
Example percent_in_status_is_a_verb :
  fmt.Error (Errorf ("Bad credentials: " +:+ "401 100%") []) = None.
Proof. reflexivity. Qed.

Example wrapped_error_text :
  fmt.Error
    (Errorf "Unable to remove Docker image: %s"
       [OpError (Errorf ("Got bad response from registry: " +:+ "403 Forbidden") [])])
  = Some "Unable to remove Docker image: Got bad response from registry: 403 Forbidden".
Proof. reflexivity. Qed.

(** ** Running programs *)

Ltac unfold_M :=
  unfold mbind, M_bind, bind, mret, M_ret, ret, os_LookupEnv, client_Do,
    client_ImagePush, set_client_Transport, http_NewRequest in *.

Ltac eqb_facts :=
  repeat match goal with
    | H : (_ =? _) = true |- _ => apply Z.eqb_eq in H
    | H : (_ =? _) = false |- _ => apply Z.eqb_neq in H
    | H : negb _ = true |- _ => apply negb_true_iff in H
    | H : negb _ = false |- _ => apply negb_false_iff in H
    end.

(** Two answers of the world to one call are one answer. *)
Ltac same_answer :=
  repeat match goal with
    | H1 : roundTrip ?w ?past ?c ?req = _, H2 : roundTrip ?w ?past ?c ?req = _ |- _ =>
        rewrite H1 in H2; simplify_eq
    end.

Ltac status_facts :=
  unfold http.StatusOK, http.StatusAccepted, http.StatusNotFound,
    http.StatusUnauthorized in *.

(** The calls of [m] come first, then those of [f]; the world sees them all. *)
Lemma run_bind {A B : Type} (w : World) (m : Prog A) (f : A -> Prog B) past :
  run w (Prog_bind m f) past =
  ((run w (f (run w m past).1) (past ++ (run w m past).2)).1,
   (run w m past).2 ++ (run w (f (run w m past).1) (past ++ (run w m past).2)).2).
Proof.
  revert past. induction m as [a|c req k IH|image options k IH]; intros past; simpl.
  - rewrite app_nil_r. by destruct (run w (f a) past).
  - rewrite IH. by rewrite <- app_assoc.
  - rewrite IH. by rewrite <- app_assoc.
Qed.

Lemma describes_Ret {A : Type} (D : A -> list Event -> Prop) w p a past :
  D a [] -> describes D p (run w (Ret (a, p)) past).
Proof. by split. Qed.

Lemma describes_HttpDo {A : Type} (D : A -> list Event -> Prop) w p' c req k past :
  describes (fun a tr => D a (EvHttp c req :: tr)) p'
    (run w (k (roundTrip w past c req)) (past ++ [EvHttp c req])) ->
  describes D p' (run w (HttpDo c req k) past).
Proof. done. Qed.

Lemma describes_mono {A : Type} (D D' : A -> list Event -> Prop) p r :
  (forall a tr, D a tr -> D' a tr) -> describes D p r -> describes D' p r.
Proof. intros HD [Hp Hr]. split; [done | by apply HD]. Qed.

(** ** [removeRegistryImage] follows the protocol *)

Section RemoveRegistryImage.

Variable url_Parse_error : string -> option error.
Variable json_Unmarshal_TokenResponse : string -> result TokenResponse.
Variable parseAuthHeader : string -> gmap string string.

Abbreviation remove :=
  (removeRegistryImage url_Parse_error json_Unmarshal_TokenResponse parseAuthHeader).
Abbreviation Delete :=
  (DeleteRun url_Parse_error json_Unmarshal_TokenResponse parseAuthHeader).
Abbreviation Bearer :=
  (BearerRun url_Parse_error json_Unmarshal_TokenResponse parseAuthHeader).

(** Lines 117 to 130: the transport is chosen once, before any request. *)
Lemma choose_client (A : Type) (k : unit * Process -> Prog A) (p : Process) :
  Prog_bind
    (match environ p !! "TF_ACC" with
     | Some env =>
         match strconv.Atoi env with
         | Some i =>
             if 1 <=? i
             then set_client_Transport
                    {| http.TLSClientConfig := Some {| http.InsecureSkipVerify := true |} |}
             else mret tt
         | None => mret tt
         end
     | None => mret tt
     end p) k
  = k (tt, with_client p (chosenClient p)).
Proof.
  unfold chosenClient, with_client.
  destruct p as [env c]; simpl.
  destruct (env !! "TF_ACC") as [s|]; [|done].
  destruct (strconv.Atoi s) as [i|]; [|done].
  by destruct (1 <=? i).
Qed.

Lemma withCredentials_eq username password req :
  (if negb (String.eqb username EmptyString)
   then http.SetBasicAuth req username password else req)
  = withCredentials username password req.
Proof. unfold withCredentials. by destruct (String.eqb username EmptyString). Qed.

(** Every run of [removeRegistryImage] is a run of the protocol, through the
    client chosen from the environment, and leaves that client behind. *)
Lemma removeRegistryImage_run w p registry image manifest username password past :
  describes
    (Delete w (chosenClient p) registry image manifest username password past)
    (with_client p (chosenClient p))
    (run w (remove registry image manifest username password p) past).
Proof.
  unfold removeRegistryImage.
  unfold mbind at 1 2, M_bind at 1 2, bind at 1 2, os_LookupEnv.
  cbn [Prog_bind fst snd].
  rewrite choose_client.
  set (c := chosenClient p).
  unfold http_NewRequest at 1.
  change ("https://" +:+ registry +:+ "/v2/" +:+ image +:+ "/manifests/" +:+ manifest)
    with (deleteURL registry image manifest).
  destruct (url_Parse_error _) as [err|] eqn:Hurl.
  { apply describes_Ret. by apply delete_bad_url. }
  rewrite withCredentials_eq.
  change (withCredentials username password _)
    with (initialRequest registry image manifest username password).
  set (req := initialRequest registry image manifest username password).
  unfold_M. cbn [Prog_bind fst snd with_client DefaultClient].
  apply describes_HttpDo.
  destruct (roundTrip w past c req) as [resp|err] eqn:Hdo; cbn [Prog_bind].
  2: { apply describes_Ret. by apply delete_transport. }
  destruct (http.StatusCode resp =? http.StatusAccepted) eqn:H202.
  { eqb_facts. apply describes_Ret. by eapply delete_accepted. }
  destruct (http.StatusCode resp =? http.StatusNotFound) eqn:H404.
  { eqb_facts. apply describes_Ret. by eapply delete_not_found. }
  destruct (http.StatusCode resp =? http.StatusUnauthorized) eqn:H401.
  2: { eqb_facts. apply describes_Ret. by eapply delete_rejected. }
  change (http.Get (http.Header_ resp) "www-authenticate") with (challengeOf resp).
  destruct (strings.HasPrefix (challengeOf resp) "Bearer") eqn:Hbearer.
  2: { eqb_facts. apply describes_Ret. by eapply delete_bad_credentials. }
  eqb_facts.
  (* the bearer challenge *)
  assert (Hstep : forall res tr,
             Bearer w c registry image manifest username password
               (past ++ [EvHttp c req]) (challengeOf resp) res tr ->
             Delete w c registry image manifest username password past res
               (EvHttp c req :: tr))
    by (intros; by eapply delete_bearer).
  revert Hstep. generalize (past ++ [EvHttp c req]). intros past1 Hstep.
  apply (describes_mono _ _ _ _ Hstep). clear Hstep.
  unfold http_NewRequest.
  change (index _ "realm" +:+ _) with (tokenURL parseAuthHeader (challengeOf resp)).
  destruct (url_Parse_error (tokenURL _ _)) as [err|] eqn:Htok.
  { apply describes_Ret. by apply bearer_bad_url. }
  rewrite withCredentials_eq.
  change (withCredentials username password _)
    with (tokenRequest parseAuthHeader username password (challengeOf resp)).
  set (treq := tokenRequest parseAuthHeader username password (challengeOf resp)).
  cbn [with_client DefaultClient].
  apply describes_HttpDo.
  destruct (roundTrip w past1 c treq) as [tresp|err] eqn:Htdo.
  2: { apply describes_Ret. by apply bearer_transport. }
  destruct (negb (http.StatusCode tresp =? http.StatusOK)) eqn:H200.
  { eqb_facts. apply describes_Ret. by eapply bearer_fetch_failed. }
  eqb_facts.
  destruct (http.Body tresp) as [body|err] eqn:Hbody.
  2: { apply describes_Ret. by eapply bearer_read_failed. }
  destruct (json_Unmarshal_TokenResponse body) as [token|err] eqn:Htoken.
  2: { apply describes_Ret. by eapply bearer_parse_failed. }
  (* the retried request *)
  assert (Hstep : forall res tr,
             RetryRun w c registry image manifest username password
               (past1 ++ [EvHttp c treq]) token res tr ->
             Bearer w c registry image manifest username password
               past1 (challengeOf resp) res (EvHttp c treq :: tr))
    by (intros; by eapply bearer_retry).
  revert Hstep. generalize (past1 ++ [EvHttp c treq]). intros past2 Hstep.
  apply (describes_mono _ _ _ _ Hstep). clear Hstep.
  change (http.Request_Header_Set req _ _)
    with (retryRequest registry image manifest username password token).
  set (rreq := retryRequest registry image manifest username password token).
  cbn [with_client DefaultClient].
  apply describes_HttpDo.
  destruct (roundTrip w past2 c rreq) as [rresp|err] eqn:Hrdo.
  2: { apply describes_Ret. by apply retry_transport. }
  destruct (negb (http.StatusCode rresp =? http.StatusOK)) eqn:Hr200.
  - eqb_facts. apply describes_Ret. by eapply retry_rejected.
  - eqb_facts. apply describes_Ret. by eapply retry_ok.
Qed.

(** The same, with the run taken apart. *)
Lemma removeRegistryImage_cases w p registry image manifest username password past :
  exists res tr,
    run w (remove registry image manifest username password p) past
    = ((res, with_client p (chosenClient p)), tr)
    /\ Delete w (chosenClient p) registry image manifest username password past res tr.
Proof.
  destruct (removeRegistryImage_run w p registry image manifest username password past)
    as [Hp HD].
  destruct (run w _ past) as [[res p'] tr]; simpl in *. subst p'. by exists res, tr.
Qed.

Lemma canonical_Authorization : http.CanonicalMIMEHeaderKey "Authorization" = "Authorization".
Proof. reflexivity. Qed.

Lemma withCredentials_Method username password req :
  http.Method (withCredentials username password req) = http.Method req.
Proof. unfold withCredentials. by destruct (String.eqb username EmptyString). Qed.

Lemma withCredentials_URL username password req :
  http.URL (withCredentials username password req) = http.URL req.
Proof. unfold withCredentials. by destruct (String.eqb username EmptyString). Qed.

(** ** The terminal states of the initial request *)

(** C2. A delete call whose initial DELETE is answered with 404 returns
    [nil], and that DELETE is the only request of the call: the bearer
    flow is not entered. *)
Theorem not_found_is_success w p registry image manifest username password past
    c req rest resp :
  (run w (remove registry image manifest username password p) past).2
    = EvHttp c req :: rest ->
  roundTrip w past c req = Ok resp ->
  http.StatusCode resp = http.StatusNotFound ->
  (run w (remove registry image manifest username password p) past).1.1 = None
  /\ rest = []
  /\ http.Method req = "DELETE"
  /\ http.URL req = deleteURL registry image manifest.
Proof.
  intros Htr Hresp Hcode.
  destruct (removeRegistryImage_cases w p registry image manifest username password past)
    as (res & tr & Hrun & HD).
  rewrite Hrun in *; simpl in *; subst tr.
  inversion HD; simplify_eq; same_answer; status_facts; try lia.
  unfold initialRequest. by rewrite withCredentials_Method, withCredentials_URL.
Qed.

(** C5. A delete call whose initial DELETE is answered with 401 and a
    [WWW-Authenticate] header that does not begin with [Bearer] fails with
    [Bad credentials: ] followed by the status line, and sends nothing
    more. *)
Theorem basic_challenge_is_bad_credentials w p registry image manifest username
    password past c req rest resp :
  (run w (remove registry image manifest username password p) past).2
    = EvHttp c req :: rest ->
  roundTrip w past c req = Ok resp ->
  http.StatusCode resp = http.StatusUnauthorized ->
  strings.HasPrefix (http.Get (http.Header_ resp) "www-authenticate") "Bearer" = false ->
  (run w (remove registry image manifest username password p) past).1.1
    = Some (Errorf ("Bad credentials: " +:+ http.Status resp) [])
  /\ rest = []
  /\ http.Method req = "DELETE"
  /\ http.URL req = deleteURL registry image manifest.
Proof.
  intros Htr Hresp Hcode Hhdr.
  destruct (removeRegistryImage_cases w p registry image manifest username password past)
    as (res & tr & Hrun & HD).
  rewrite Hrun in *; simpl in *; subst tr.
  inversion HD; simplify_eq; same_answer; unfold challengeOf in *; status_facts;
    try lia; try congruence.
  unfold initialRequest. by rewrite withCredentials_Method, withCredentials_URL.
Qed.

(** ** The bearer challenge *)

(** C3. In the bearer sub-flow, a token endpoint that answers with a status
    other than 200 makes the call fail with that response's status, and the
    token GET is the last request: the DELETE is not retried. *)
Theorem token_fetch_failure_stops w p registry image manifest username password past
    c req c' treq rest tresp :
  (run w (remove registry image manifest username password p) past).2
    = EvHttp c req :: EvHttp c' treq :: rest ->
  roundTrip w (past ++ [EvHttp c req]) c' treq = Ok tresp ->
  http.StatusCode tresp <> http.StatusOK ->
  (run w (remove registry image manifest username password p) past).1.1
    = Some (Errorf ("Got bad response from registry: " +:+ http.Status tresp) [])
  /\ rest = []
  /\ http.Method treq = "GET".
Proof.
  intros Htr Hresp Hcode.
  destruct (removeRegistryImage_cases w p registry image manifest username password past)
    as (res & tr & Hrun & HD).
  rewrite Hrun in *; simpl in *; subst tr.
  inversion HD as [| | | | | |resp res' tr' Hurl Hdo H401 Hbearer HB]; simplify_eq.
  assert (Hget : http.Method (tokenRequest parseAuthHeader username password
                                (challengeOf resp)) = "GET").
  { unfold tokenRequest, withCredentials. by destruct (String.eqb username EmptyString). }
  inversion HB; simplify_eq; same_answer; done.
Qed.

(** A request built without headers and passed through the credentials
    step has the basic [Authorization] value, or no header at all. *)
Lemma withCredentials_Header username password method url_ :
  let req := withCredentials username password
               {| http.Method := method; http.URL := url_; http.ReqHeader := ∅ |} in
  http.ReqHeader req !! "Authorization" = expectedAuthorization username password
  /\ (username = EmptyString -> http.ReqHeader req = ∅).
Proof.
  unfold withCredentials, expectedAuthorization.
  destruct (String.eqb_spec username EmptyString) as [->|Hne]; simpl.
  - by rewrite lookup_empty.
  - unfold http.Set_. rewrite canonical_Authorization, lookup_insert_eq. done.
Qed.

Lemma retryRequest_Header registry image manifest username password token :
  http.ReqHeader (retryRequest registry image manifest username password token)
  = <["Authorization" := ["Bearer " +:+ Token token]]>
      (http.ReqHeader (initialRequest registry image manifest username password)).
Proof. unfold retryRequest, http.Request_Header_Set, http.Set_. simpl. by rewrite canonical_Authorization. Qed.

(** C4. In the bearer sub-flow with token [t], the retried request is the
    initial DELETE with its [Authorization] header set to exactly
    [Bearer t]: that is the header's only value, so the basic credentials of
    the initial request are gone. *)
Theorem retry_carries_bearer_token w p registry image manifest username password past
    c req c' treq rest tresp body token :
  (run w (remove registry image manifest username password p) past).2
    = EvHttp c req :: EvHttp c' treq :: rest ->
  roundTrip w (past ++ [EvHttp c req]) c' treq = Ok tresp ->
  http.StatusCode tresp = http.StatusOK ->
  http.Body tresp = Ok body ->
  json_Unmarshal_TokenResponse body = Ok token ->
  exists retried,
    rest = [EvHttp c retried]
    /\ http.Method retried = "DELETE"
    /\ http.URL retried = http.URL req
    /\ http.ReqHeader retried
       = <["Authorization" := ["Bearer " +:+ Token token]]> (http.ReqHeader req)
    /\ http.ReqHeader retried !! "Authorization" = Some ["Bearer " +:+ Token token]
    /\ http.Get (http.ReqHeader retried) "Authorization" = "Bearer " +:+ Token token
    /\ ~ In (basicAuthorization username password)
         (default [] (http.ReqHeader retried !! "Authorization")).
Proof.
  intros Htr Hresp Hcode Hbody Htoken.
  destruct (removeRegistryImage_cases w p registry image manifest username password past)
    as (res & tr & Hrun & HD).
  rewrite Hrun in *; simpl in *; subst tr.
  inversion HD as [| | | | | |resp res' tr' Hurl Hdo H401 Hbearer HB]; simplify_eq.
  inversion HB as [| | | | |? ? ? ? ? ? ? ? ? ? HR]; simplify_eq; same_answer;
    try done; try congruence.
  assert (token0 = token) as -> by congruence.
  exists (retryRequest registry image manifest username password token).
  assert (Hhdr := retryRequest_Header registry image manifest username password token).
  split; [by inversion HR|].
  split; [unfold retryRequest, initialRequest; simpl; by rewrite withCredentials_Method|].
  split; [done|]. split; [done|].
  assert (Hlook : http.ReqHeader (retryRequest registry image manifest username password token)
                  !! "Authorization" = Some ["Bearer " +:+ Token token])
    by (by rewrite Hhdr, lookup_insert_eq).
  split; [done|].
  split; [unfold http.Get; by rewrite canonical_Authorization, Hlook|].
  rewrite Hlook. simpl. unfold basicAuthorization. intros [Heq|[]]. discriminate Heq.
Qed.

(** C6. The first two requests of a delete call, the initial DELETE and
    the token GET, carry no header at all when the user name is empty, and
    otherwise carry [Authorization: Basic] with the base64 of
    [username:password]. *)
Theorem basic_auth_follows_username w p registry image manifest username password past
    i c req :
  (run w (remove registry image manifest username password p) past).2 !! i
    = Some (EvHttp c req) ->
  (i < 2)%nat ->
  http.Method req = (if decide (i = 0%nat) then "DELETE" else "GET")
  /\ (username = EmptyString -> http.ReqHeader req = ∅)
  /\ (username <> EmptyString ->
      http.ReqHeader req !! "Authorization"
      = Some ["Basic " +:+
              base64.StdEncoding_EncodeToString (username +:+ ":" +:+ password)]).
Proof.
  intros Hev Hi.
  destruct (removeRegistryImage_cases w p registry image manifest username password past)
    as (res & tr & Hrun & HD).
  rewrite Hrun in *; simpl in *.
  assert (Hreq : exists method url_,
             req = withCredentials username password
                     {| http.Method := method; http.URL := url_; http.ReqHeader := ∅ |}
             /\ method = if decide (i = 0%nat) then "DELETE" else "GET").
  { destruct i as [|[|i]]; [| |lia].
    - inversion HD; simplify_eq/=; by eexists _, _.
    - inversion HD as [| | | | | |resp res' tr' Hurl Hdo H401 Hbearer HB]; simplify_eq/=.
      inversion HB; simplify_eq/=; by eexists _, _. }
  destruct Hreq as (method & url_ & -> & ->).
  destruct (withCredentials_Header username password
              (if decide (i = 0%nat) then "DELETE" else "GET") url_) as [Hlook Hempty].
  split; [by rewrite withCredentials_Method|].
  split; [done|].
  intros Hne. rewrite Hlook. unfold expectedAuthorization.
  by destruct (String.eqb_spec username EmptyString).
Qed.

(** The whole bearer flow, forwards: a 401 with a bearer challenge, a token
    endpoint that answers 200 with a body that decodes, and an answer to
    the retried DELETE.  The call succeeds exactly when that last answer
    is 200. *)
Lemma bearer_flow_outcome w p registry image manifest username password past
    resp tresp body token rresp :
  let c := chosenClient p in
  let req := initialRequest registry image manifest username password in
  let treq := tokenRequest parseAuthHeader username password (challengeOf resp) in
  let rreq := retryRequest registry image manifest username password token in
  url_Parse_error (deleteURL registry image manifest) = None ->
  roundTrip w past c req = Ok resp ->
  http.StatusCode resp = http.StatusUnauthorized ->
  strings.HasPrefix (challengeOf resp) "Bearer" = true ->
  url_Parse_error (tokenURL parseAuthHeader (challengeOf resp)) = None ->
  roundTrip w (past ++ [EvHttp c req]) c treq = Ok tresp ->
  http.StatusCode tresp = http.StatusOK ->
  http.Body tresp = Ok body ->
  json_Unmarshal_TokenResponse body = Ok token ->
  roundTrip w ((past ++ [EvHttp c req]) ++ [EvHttp c treq]) c rreq = Ok rresp ->
  run w (remove registry image manifest username password p) past
  = ((if http.StatusCode rresp =? http.StatusOK then None
      else Some (Errorf ("Got bad response from registry: " +:+ http.Status rresp) []),
      with_client p c),
     [EvHttp c req; EvHttp c treq; EvHttp c rreq]).
Proof.
  intros c req treq rreq Hurl Hdo H401 Hbearer Htok Htdo H200 Hbody Htoken Hrdo.
  destruct (removeRegistryImage_cases w p registry image manifest username password past)
    as (res & tr & Hrun & HD).
  rewrite Hrun. subst c req treq rreq.
  inversion HD as [| | | | | |resp' res' tr' Hurl' Hdo' H401' Hbearer' HB];
    simplify_eq; same_answer; status_facts; try congruence; try lia.
  inversion HB as [| | | | |? ? ? ? ? ? ? ? ? ? HR];
    simplify_eq; same_answer; status_facts; try congruence.
  assert (token0 = token) as -> by congruence.
  inversion HR; simplify_eq; same_answer; case_match; eqb_facts; done.
Qed.

(** C1 (the half the code breaks). When the DELETE is retried with the
    bearer token and answered with 202 Accepted, the status that ends the
    initial request in success, the call fails with [Got bad response from
    registry: ] and the status line: only 200 is taken as success on the
    retried path. *)
Theorem bearer_retry_accepted_is_an_error w p registry image manifest username password
    past c req c' treq c'' rreq rest rresp :
  (run w (remove registry image manifest username password p) past).2
    = EvHttp c req :: EvHttp c' treq :: EvHttp c'' rreq :: rest ->
  roundTrip w ((past ++ [EvHttp c req]) ++ [EvHttp c' treq]) c'' rreq = Ok rresp ->
  http.StatusCode rresp = http.StatusAccepted ->
  (run w (remove registry image manifest username password p) past).1.1
  = Some (Errorf ("Got bad response from registry: " +:+ http.Status rresp) []).
Proof.
  intros Htr Hresp Hcode.
  destruct (removeRegistryImage_cases w p registry image manifest username password past)
    as (res & tr & Hrun & HD).
  rewrite Hrun in *; simpl in *; subst tr.
  inversion HD as [| | | | | |resp res' tr' Hurl Hdo H401 Hbearer HB]; simplify_eq.
  inversion HB as [| | | | |? ? ? ? ? ? ? ? ? ? HR]; simplify_eq.
  inversion HR; simplify_eq; same_answer; status_facts; try done; lia.
Qed.

(** A retried DELETE answered with 200 ends the call in success. *)
Lemma bearer_retry_ok_is_success w p registry image manifest username password
    past resp tresp body token rresp :
  let c := chosenClient p in
  let req := initialRequest registry image manifest username password in
  let treq := tokenRequest parseAuthHeader username password (challengeOf resp) in
  let rreq := retryRequest registry image manifest username password token in
  url_Parse_error (deleteURL registry image manifest) = None ->
  roundTrip w past c req = Ok resp ->
  http.StatusCode resp = http.StatusUnauthorized ->
  strings.HasPrefix (challengeOf resp) "Bearer" = true ->
  url_Parse_error (tokenURL parseAuthHeader (challengeOf resp)) = None ->
  roundTrip w (past ++ [EvHttp c req]) c treq = Ok tresp ->
  http.StatusCode tresp = http.StatusOK ->
  http.Body tresp = Ok body ->
  json_Unmarshal_TokenResponse body = Ok token ->
  roundTrip w ((past ++ [EvHttp c req]) ++ [EvHttp c treq]) c rreq = Ok rresp ->
  http.StatusCode rresp = http.StatusOK ->
  (run w (remove registry image manifest username password p) past).1.1 = None.
Proof.
  intros c req treq rreq Hurl Hdo H401 Hbearer Htok Htdo H200 Hbody Htoken Hrdo Hok.
  rewrite (bearer_flow_outcome w p registry image manifest username password past
             resp tresp body token rresp) by done.
  simpl. by rewrite Hok.
Qed.

(** ** The transport *)

Lemma acceptance_cases env : acceptance_tests env \/ no_acceptance_tests env.
Proof.
  unfold acceptance_tests, no_acceptance_tests.
  destruct (env !! "TF_ACC") as [s|] eqn:Henv; [|by right; left].
  destruct (strconv.Atoi s) as [i|] eqn:Hconv; [|right; right; left; by exists s].
  destruct (Z_lt_le_dec i 1).
  - right; right; right. by exists s, i.
  - left. by exists s, i.
Qed.

Lemma chosenClient_acceptance p :
  acceptance_tests (environ p) -> chosenClient p = insecureClient.
Proof.
  intros (s & i & Henv & Hconv & Hi). unfold chosenClient. rewrite Henv, Hconv.
  destruct (Z.leb_spec 1 i); [done | lia].
Qed.

Lemma chosenClient_otherwise p :
  no_acceptance_tests (environ p) -> chosenClient p = DefaultClient p.
Proof.
  unfold chosenClient.
  intros [Henv|[(s & Henv & Hconv)|(s & i & Henv & Hconv & Hi)]]; rewrite Henv; [done| |].
  - by rewrite Hconv.
  - rewrite Hconv. destruct (Z.leb_spec 1 i); [lia | done].
Qed.

Lemma RetryRun_sent_with w c registry image manifest username password past token res tr :
  RetryRun w c registry image manifest username password past token res tr ->
  sent_with c tr.
Proof. intros HR c' req' Hin. inversion HR; subst; destruct Hin as [?|[]]; congruence. Qed.

Lemma BearerRun_sent_with w c registry image manifest username password past challenge
    res tr :
  Bearer w c registry image manifest username password past challenge res tr ->
  sent_with c tr.
Proof.
  intros HB c' req' Hin.
  inversion HB as [| | | | |? ? ? ? ? ? ? ? ? ? HR]; subst.
  1: destruct Hin.
  1-4: destruct Hin as [?|[]]; congruence.
  destruct Hin as [?|Hin]; [congruence|].
  by eapply RetryRun_sent_with.
Qed.

Lemma DeleteRun_sent_with w c registry image manifest username password past res tr :
  Delete w c registry image manifest username password past res tr ->
  sent_with c tr.
Proof.
  intros HD c' req' Hin.
  inversion HD as [| | | | | |? ? ? ? ? ? ? HB]; subst.
  1: destruct Hin.
  1-5: destruct Hin as [?|[]]; congruence.
  destruct Hin as [?|Hin]; [congruence|].
  by eapply BearerRun_sent_with.
Qed.

(** C10. The client that skips certificate verification is installed, and
    the requests of the call go out through it, when [TF_ACC] is set and
    parses as an integer that is at least 1.  When [TF_ACC] is unset, is no
    integer, or is below 1, the call leaves the process's client as it
    found it, so a verifying client stays one, and sends every request
    through it.  One of the two is always the case, and the environment is
    not touched. *)
Theorem insecure_transport_only_for_acceptance_tests w p registry image manifest
    username password past :
  (acceptance_tests (environ p) ->
   DefaultClient (run w (remove registry image manifest username password p) past).1.2
     = insecureClient
   /\ sent_with insecureClient
        (run w (remove registry image manifest username password p) past).2)
  /\ (no_acceptance_tests (environ p) ->
      DefaultClient (run w (remove registry image manifest username password p) past).1.2
        = DefaultClient p
      /\ sent_with (DefaultClient p)
           (run w (remove registry image manifest username password p) past).2)
  /\ (acceptance_tests (environ p) \/ no_acceptance_tests (environ p))
  /\ environ (run w (remove registry image manifest username password p) past).1.2
      = environ p
  /\ http.skips_verification insecureClient = true.
Proof.
  destruct (removeRegistryImage_cases w p registry image manifest username password past)
    as (res & tr & Hrun & HD).
  rewrite Hrun; simpl. apply DeleteRun_sent_with in HD.
  split; [|split; [|split; [apply acceptance_cases | done]]].
  - intros Hacc. by rewrite chosenClient_acceptance in *.
  - intros Hno. by rewrite chosenClient_otherwise in *.
Qed.

End RemoveRegistryImage.

(** ** Delete and push *)

Section DeleteAndPush.

Variable url_Parse_error : string -> option error.
Variable json_Unmarshal_TokenResponse : string -> result TokenResponse.
Variable json_encodeString : string -> string.
Variable parseImageOptions : string -> ImageOptions.
Variable normalizeRegistryAddress : string -> string.
Variable parseAuthHeader : string -> gmap string string.
Variable processStreamingOutput : string -> option error.

Abbreviation delete :=
  (resourceDockerRegistryImageDelete url_Parse_error json_Unmarshal_TokenResponse
     parseImageOptions normalizeRegistryAddress parseAuthHeader).
Abbreviation push :=
  (pushImage json_encodeString parseImageOptions normalizeRegistryAddress
     processStreamingOutput).

(** C9. With [keep_remote] set, the delete returns [nil] at once: no
    request is sent, and the resource data and the process are as
    before. *)
Theorem keep_remote_skips_delete w d meta p past :
  keep_remote d = true ->
  run w (delete d meta p) past = (((None, d), p), []).
Proof. intros Hkeep. unfold resourceDockerRegistryImageDelete. by rewrite Hkeep. Qed.

(** Without [keep_remote], the requests of the delete are those of
    [removeRegistryImage] on the resolved registry, repository and
    credentials. *)
Lemma delete_requests w d meta p past :
  keep_remote d = false ->
  (run w (delete d meta p) past).2
  = (run w (removeRegistryImage url_Parse_error json_Unmarshal_TokenResponse
              parseAuthHeader
              (Registry (deleteOptions parseImageOptions (name d)))
              (Repository (deleteOptions parseImageOptions (name d)))
              (sha256_digest d)
              (deleteCredentials normalizeRegistryAddress (AuthConfigs_ meta)
                 (deleteOptions parseImageOptions (name d))).1
              (deleteCredentials normalizeRegistryAddress (AuthConfigs_ meta)
                 (deleteOptions parseImageOptions (name d))).2
              p) past).2.
Proof.
  intros Hkeep. unfold resourceDockerRegistryImageDelete. rewrite Hkeep.
  destruct (deleteCredentials _ _ _) as [username password]; simpl.
  unfold mbind, M_bind, bind. rewrite run_bind; simpl.
  by destruct (run w _ past).1.1; simpl; rewrite app_nil_r.
Qed.

(** A name without a registry goes to the Docker hub; a repository of one
    segment gets the [library/] prefix; the credentials are looked up under
    the normalized hub address. *)
Lemma deleteOptions_without_registry image :
  Registry (parseImageOptions image) = EmptyString ->
  Registry (deleteOptions parseImageOptions image) = "registry.hub.docker.com"
  /\ Repository (deleteOptions parseImageOptions image)
     = (if strings.Contains (Repository (parseImageOptions image)) "/"
        then Repository (parseImageOptions image)
        else "library/" +:+ Repository (parseImageOptions image)).
Proof.
  intros Hreg. unfold deleteOptions. rewrite Hreg. simpl.
  destruct (strings.Contains _ "/"); simpl; by case_match.
Qed.

Lemma deleteCredentials_key authConfig pullOpts :
  deleteCredentials normalizeRegistryAddress authConfig pullOpts
  = credentialsAt authConfig (normalizeRegistryAddress (Registry pullOpts)).
Proof. done. Qed.

(** C8. Against an empty credential table, a push of any reference hands
    the engine the registry-auth header [e30=], the base64 of the empty
    JSON object: the header is sent, and the push is not refused before
    it reaches the engine. *)
Theorem anonymous_push_sends_empty_object w authConfig image p past :
  Configs authConfig = ∅ ->
  (run w (push authConfig image p) past).2
    = [EvPush image {| types.RegistryAuth := "e30=" |}]
  /\ json.Marshal_AuthConfig json_encodeString (pushAuth parseImageOptions
       normalizeRegistryAddress authConfig image) = Ok "{}"
  /\ base64.URLEncoding_EncodeToString "{}" = "e30=".
Proof.
  intros Hempty.
  assert (Hauth : pushAuth parseImageOptions normalizeRegistryAddress authConfig image
                  = types.AuthConfig_zero).
  { unfold pushAuth. rewrite Hempty, !lookup_empty. by case_match. }
  unfold pushImage. rewrite Hauth.
  split; [|done].
  unfold_M; simpl. by destruct (enginePush w past image _).
Qed.

End DeleteAndPush.

(** ** The theorems on concrete runs

    The image [library/consul] on the Docker hub, user [alice], against
    scripted registries. *)

Lemma not_found_is_success_witness :
  (run (scripted [response 404 "404 Not Found" None EmptyString])
     (removeRegistryImage every_url_parses token_is_body hub_challenge
        "registry.hub.docker.com" "library/consul" "sha256:0a" "alice" "secret"
        (process_of ∅)) []).1.1 = None
  /\ @nil Event = []
  /\ http.Method (initialRequest "registry.hub.docker.com" "library/consul" "sha256:0a"
                    "alice" "secret") = "DELETE"
  /\ http.URL (initialRequest "registry.hub.docker.com" "library/consul" "sha256:0a"
                 "alice" "secret")
     = deleteURL "registry.hub.docker.com" "library/consul" "sha256:0a".
Proof.
  apply (not_found_is_success every_url_parses token_is_body hub_challenge
           (scripted [response 404 "404 Not Found" None EmptyString]) (process_of ∅)
           "registry.hub.docker.com" "library/consul" "sha256:0a" "alice" "secret" []
           strictClient
           (initialRequest "registry.hub.docker.com" "library/consul" "sha256:0a"
              "alice" "secret")
           []
           {| http.StatusCode := 404; http.Status := "404 Not Found";
              http.Header_ := ∅; http.Body := Ok EmptyString |}).
  all: vm_compute; reflexivity.
Defined.

Lemma basic_challenge_is_bad_credentials_witness :
  (run (scripted [response 401 "401 Unauthorized" (Some "Basic realm=hub") EmptyString])
     (removeRegistryImage every_url_parses token_is_body hub_challenge
        "registry.hub.docker.com" "library/consul" "sha256:0a" "alice" "secret"
        (process_of ∅)) []).1.1
  = Some (Errorf "Bad credentials: 401 Unauthorized" [])
  /\ @nil Event = []
  /\ http.Method (initialRequest "registry.hub.docker.com" "library/consul" "sha256:0a"
                    "alice" "secret") = "DELETE"
  /\ http.URL (initialRequest "registry.hub.docker.com" "library/consul" "sha256:0a"
                 "alice" "secret")
     = deleteURL "registry.hub.docker.com" "library/consul" "sha256:0a".
Proof.
  apply (basic_challenge_is_bad_credentials every_url_parses token_is_body hub_challenge
           (scripted [response 401 "401 Unauthorized" (Some "Basic realm=hub") EmptyString])
           (process_of ∅)
           "registry.hub.docker.com" "library/consul" "sha256:0a" "alice" "secret" []
           strictClient
           (initialRequest "registry.hub.docker.com" "library/consul" "sha256:0a"
              "alice" "secret")
           []
           {| http.StatusCode := 401; http.Status := "401 Unauthorized";
              http.Header_ := {[ "Www-Authenticate" := ["Basic realm=hub"] ]};
              http.Body := Ok EmptyString |}).
  all: vm_compute; reflexivity.
Defined.

Lemma token_fetch_failure_stops_witness :
  (run (scripted [unauthorized_bearer; response 403 "403 Forbidden" None EmptyString])
     (removeRegistryImage every_url_parses token_is_body hub_challenge
        "registry.hub.docker.com" "library/consul" "sha256:0a" "alice" "secret"
        (process_of ∅)) []).1.1
  = Some (Errorf "Got bad response from registry: 403 Forbidden" [])
  /\ @nil Event = []
  /\ http.Method (tokenRequest hub_challenge "alice" "secret" "Bearer realm=auth") = "GET".
Proof.
  apply (token_fetch_failure_stops every_url_parses token_is_body hub_challenge
           (scripted [unauthorized_bearer; response 403 "403 Forbidden" None EmptyString])
           (process_of ∅)
           "registry.hub.docker.com" "library/consul" "sha256:0a" "alice" "secret" []
           strictClient
           (initialRequest "registry.hub.docker.com" "library/consul" "sha256:0a"
              "alice" "secret")
           strictClient
           (tokenRequest hub_challenge "alice" "secret" "Bearer realm=auth")
           []
           {| http.StatusCode := 403; http.Status := "403 Forbidden";
              http.Header_ := ∅; http.Body := Ok EmptyString |}).
  - vm_compute; reflexivity.
  - vm_compute; reflexivity.
  - vm_compute; discriminate.
Defined.

Lemma retry_carries_bearer_token_witness :
  exists retried,
    [EvHttp strictClient
       (retryRequest "registry.hub.docker.com" "library/consul" "sha256:0a"
          "alice" "secret" {| Token := "t0k3n" |})]
    = [EvHttp strictClient retried]
    /\ http.Method retried = "DELETE"
    /\ http.URL retried
       = http.URL (initialRequest "registry.hub.docker.com" "library/consul" "sha256:0a"
                     "alice" "secret")
    /\ http.ReqHeader retried
       = <["Authorization" := ["Bearer " +:+ "t0k3n"]]>
           (http.ReqHeader (initialRequest "registry.hub.docker.com" "library/consul"
                              "sha256:0a" "alice" "secret"))
    /\ http.ReqHeader retried !! "Authorization" = Some ["Bearer " +:+ "t0k3n"]
    /\ http.Get (http.ReqHeader retried) "Authorization" = "Bearer " +:+ "t0k3n"
    /\ ~ In (basicAuthorization "alice" "secret")
         (default [] (http.ReqHeader retried !! "Authorization")).
Proof.
  apply (retry_carries_bearer_token every_url_parses token_is_body hub_challenge
           (scripted (bearer_script 200 "200 OK")) (process_of ∅)
           "registry.hub.docker.com" "library/consul" "sha256:0a" "alice" "secret" []
           strictClient
           (initialRequest "registry.hub.docker.com" "library/consul" "sha256:0a"
              "alice" "secret")
           strictClient
           (tokenRequest hub_challenge "alice" "secret" "Bearer realm=auth")
           [EvHttp strictClient
              (retryRequest "registry.hub.docker.com" "library/consul" "sha256:0a"
                 "alice" "secret" {| Token := "t0k3n" |})]
           {| http.StatusCode := 200; http.Status := "200 OK";
              http.Header_ := ∅; http.Body := Ok "t0k3n" |}
           "t0k3n" {| Token := "t0k3n" |}).
  all: vm_compute; reflexivity.
Defined.

Lemma basic_auth_follows_username_witness :
  http.Method (tokenRequest hub_challenge "alice" "secret" "Bearer realm=auth")
  = (if decide (1%nat = 0%nat) then "DELETE" else "GET")
  /\ ("alice" = EmptyString ->
      http.ReqHeader (tokenRequest hub_challenge "alice" "secret" "Bearer realm=auth") = ∅)
  /\ ("alice" <> EmptyString ->
      http.ReqHeader (tokenRequest hub_challenge "alice" "secret" "Bearer realm=auth")
        !! "Authorization"
      = Some ["Basic " +:+ base64.StdEncoding_EncodeToString ("alice" +:+ ":" +:+ "secret")]).
Proof.
  apply (basic_auth_follows_username every_url_parses token_is_body hub_challenge
           (scripted (bearer_script 200 "200 OK")) (process_of ∅)
           "registry.hub.docker.com" "library/consul" "sha256:0a" "alice" "secret" []
           1%nat strictClient).
  - vm_compute; reflexivity.
  - lia.
Defined.

Lemma bearer_retry_accepted_is_an_error_witness :
  (run (scripted (bearer_script 202 "202 Accepted"))
     (removeRegistryImage every_url_parses token_is_body hub_challenge
        "registry.hub.docker.com" "library/consul" "sha256:0a" "alice" "secret"
        (process_of ∅)) []).1.1
  = Some (Errorf "Got bad response from registry: 202 Accepted" []).
Proof.
  apply (bearer_retry_accepted_is_an_error every_url_parses token_is_body hub_challenge
           (scripted (bearer_script 202 "202 Accepted")) (process_of ∅)
           "registry.hub.docker.com" "library/consul" "sha256:0a" "alice" "secret" []
           strictClient
           (initialRequest "registry.hub.docker.com" "library/consul" "sha256:0a"
              "alice" "secret")
           strictClient
           (tokenRequest hub_challenge "alice" "secret" "Bearer realm=auth")
           strictClient
           (retryRequest "registry.hub.docker.com" "library/consul" "sha256:0a"
              "alice" "secret" {| Token := "t0k3n" |})
           []
           {| http.StatusCode := 202; http.Status := "202 Accepted";
              http.Header_ := ∅; http.Body := Ok EmptyString |}).
  all: vm_compute; reflexivity.
Defined.

Lemma insecure_transport_only_for_acceptance_tests_witness :
  (DefaultClient
     (run (scripted [response 202 "202 Accepted" None EmptyString])
        (removeRegistryImage every_url_parses token_is_body hub_challenge
           "localhost:5000" "consul" "sha256:0a" EmptyString EmptyString
           (process_of {[ "TF_ACC" := "1" ]})) []).1.2
   = insecureClient
   /\ sent_with insecureClient
        (run (scripted [response 202 "202 Accepted" None EmptyString])
           (removeRegistryImage every_url_parses token_is_body hub_challenge
              "localhost:5000" "consul" "sha256:0a" EmptyString EmptyString
              (process_of {[ "TF_ACC" := "1" ]})) []).2)
  /\ (DefaultClient
        (run (scripted [response 202 "202 Accepted" None EmptyString])
           (removeRegistryImage every_url_parses token_is_body hub_challenge
              "localhost:5000" "consul" "sha256:0a" EmptyString EmptyString
              (process_of {[ "TF_ACC" := "yes" ]})) []).1.2
      = strictClient
      /\ sent_with strictClient
           (run (scripted [response 202 "202 Accepted" None EmptyString])
              (removeRegistryImage every_url_parses token_is_body hub_challenge
                 "localhost:5000" "consul" "sha256:0a" EmptyString EmptyString
                 (process_of {[ "TF_ACC" := "yes" ]})) []).2).
Proof.
  split.
  - apply (insecure_transport_only_for_acceptance_tests every_url_parses token_is_body
             hub_challenge (scripted [response 202 "202 Accepted" None EmptyString])
             (process_of {[ "TF_ACC" := "1" ]})
             "localhost:5000" "consul" "sha256:0a" EmptyString EmptyString []).
    exists "1", 1. repeat split; first [lia | vm_compute; reflexivity].
  - apply (insecure_transport_only_for_acceptance_tests every_url_parses token_is_body
             hub_challenge (scripted [response 202 "202 Accepted" None EmptyString])
             (process_of {[ "TF_ACC" := "yes" ]})
             "localhost:5000" "consul" "sha256:0a" EmptyString EmptyString []).
    right; left. exists "yes". split; vm_compute; reflexivity.
Defined.

Lemma keep_remote_skips_delete_witness :
  run (scripted [])
    (resourceDockerRegistryImageDelete every_url_parses token_is_body
       spec_parseImageOptions spec_normalizeRegistryAddress hub_challenge
       {| name := "consul"; sha256_digest := "sha256:0a"; keep_remote := true;
          Id := "sha256:0a" |}
       {| AuthConfigs_ := {| Configs := ∅ |} |} (process_of ∅)) []
  = (((None,
       {| name := "consul"; sha256_digest := "sha256:0a"; keep_remote := true;
          Id := "sha256:0a" |}),
      process_of ∅), []).
Proof.
  apply (keep_remote_skips_delete every_url_parses token_is_body spec_parseImageOptions
           spec_normalizeRegistryAddress hub_challenge).
  reflexivity.
Defined.

Lemma anonymous_push_sends_empty_object_witness :
  (run (scripted [])
     (pushImage (fun s => json.quoted s) spec_parseImageOptions
        spec_normalizeRegistryAddress (fun _ => None) {| Configs := ∅ |}
        "quay.io/acme/app:1.0" (process_of ∅)) []).2
  = [EvPush "quay.io/acme/app:1.0" {| types.RegistryAuth := "e30=" |}]
  /\ json.Marshal_AuthConfig (fun s => json.quoted s)
       (pushAuth spec_parseImageOptions spec_normalizeRegistryAddress {| Configs := ∅ |}
          "quay.io/acme/app:1.0") = Ok "{}"
  /\ base64.URLEncoding_EncodeToString "{}" = "e30=".
Proof.
  apply (anonymous_push_sends_empty_object (fun s => json.quoted s) spec_parseImageOptions
           spec_normalizeRegistryAddress (fun _ => None) (scripted [])
           {| Configs := ∅ |} "quay.io/acme/app:1.0" (process_of ∅) []).
  reflexivity.
Defined.

(** * Further properties *)

(** ** More of [removeRegistryImage] *)

Section RemoveRegistryImageMore.

Variable url_Parse_error : string -> option error.
Variable json_Unmarshal_TokenResponse : string -> result TokenResponse.
Variable parseAuthHeader : string -> gmap string string.

Abbreviation remove :=
  (removeRegistryImage url_Parse_error json_Unmarshal_TokenResponse parseAuthHeader).
Abbreviation Delete :=
  (DeleteRun url_Parse_error json_Unmarshal_TokenResponse parseAuthHeader).
Abbreviation Bearer :=
  (BearerRun url_Parse_error json_Unmarshal_TokenResponse parseAuthHeader).

(** The requests of a run, by position. *)
Lemma DeleteRun_requests w c registry image manifest username password past res tr :
  Delete w c registry image manifest username password past res tr ->
  tr = []
  \/ tr = [EvHttp c (initialRequest registry image manifest username password)]
  \/ (exists challenge,
        tr = [EvHttp c (initialRequest registry image manifest username password);
              EvHttp c (tokenRequest parseAuthHeader username password challenge)])
  \/ (exists challenge token,
        tr = [EvHttp c (initialRequest registry image manifest username password);
              EvHttp c (tokenRequest parseAuthHeader username password challenge);
              EvHttp c (retryRequest registry image manifest username password token)]).
Proof.
  intros HD.
  inversion HD as [| | | | | |? ? ? ? ? ? ? HB]; subst; eauto.
  inversion HB as [| | | | |? ? ? ? ? ? ? ? ? ? HR]; subst; eauto 6.
  inversion HR; subst; eauto 8.
Qed.

(** X1. A delete call whose initial DELETE is answered with 202 Accepted
    returns [nil] after that one request. *)
Theorem accepted_is_success w p registry image manifest username password past
    c req rest resp :
  (run w (remove registry image manifest username password p) past).2
    = EvHttp c req :: rest ->
  roundTrip w past c req = Ok resp ->
  http.StatusCode resp = http.StatusAccepted ->
  (run w (remove registry image manifest username password p) past).1.1 = None
  /\ rest = [].
Proof.
  intros Htr Hresp Hcode.
  destruct (removeRegistryImage_cases url_Parse_error json_Unmarshal_TokenResponse
              parseAuthHeader w p registry image manifest username password past)
    as (res & tr & Hrun & HD).
  rewrite Hrun in *; simpl in *; subst tr.
  inversion HD; simplify_eq; same_answer; status_facts; try done; lia.
Qed.

(** X2. An initial DELETE answered with any status other than 202, 404 and
    401 (200 OK among them) makes the call fail with [Got bad response from
    registry: ] and the status line, after that one request. *)
Theorem unexpected_status_is_an_error w p registry image manifest username password past
    c req rest resp :
  (run w (remove registry image manifest username password p) past).2
    = EvHttp c req :: rest ->
  roundTrip w past c req = Ok resp ->
  http.StatusCode resp <> http.StatusAccepted ->
  http.StatusCode resp <> http.StatusNotFound ->
  http.StatusCode resp <> http.StatusUnauthorized ->
  (run w (remove registry image manifest username password p) past).1.1
    = Some (Errorf ("Got bad response from registry: " +:+ http.Status resp) [])
  /\ rest = [].
Proof.
  intros Htr Hresp H202 H404 H401.
  destruct (removeRegistryImage_cases url_Parse_error json_Unmarshal_TokenResponse
              parseAuthHeader w p registry image manifest username password past)
    as (res & tr & Hrun & HD).
  rewrite Hrun in *; simpl in *; subst tr.
  inversion HD; simplify_eq; same_answer; done.
Qed.

(** X3. Whichever request of the call fails in transport ([client.Do]
    returns an error), the call returns [Error during registry request]
    with that error and sends nothing after it. *)
Theorem transport_error_stops w p registry image manifest username password past
    before c req rest err :
  (run w (remove registry image manifest username password p) past).2
    = before ++ EvHttp c req :: rest ->
  roundTrip w (past ++ before) c req = Err err ->
  (run w (remove registry image manifest username password p) past).1.1
    = Some (Errorf "Error during registry request: %s" [OpError err])
  /\ rest = [].
Proof.
  intros Htr Hresp.
  destruct (removeRegistryImage_cases url_Parse_error json_Unmarshal_TokenResponse
              parseAuthHeader w p registry image manifest username password past)
    as (res & tr & Hrun & HD).
  rewrite Hrun in *; simpl in *; subst tr.
  destruct before as [|e1 [|e2 [|e3 before]]]; simpl in *.
  - rewrite app_nil_r in Hresp.
    inversion HD; simplify_eq; same_answer; done.
  - inversion HD as [| | | | | |? ? ? ? ? ? ? HB]; simplify_eq.
    inversion HB; simplify_eq; same_answer; done.
  - change [e1; e2] with ([e1] ++ [e2]) in Hresp. rewrite app_assoc in Hresp.
    inversion HD as [| | | | | |? ? ? ? ? ? ? HB]; simplify_eq.
    inversion HB as [| | | | |? ? ? ? ? ? ? ? ? ? HR]; simplify_eq.
    inversion HR; simplify_eq; same_answer; done.
  - exfalso.
    apply DeleteRun_requests in HD.
    destruct HD as [HD|[HD|[(? & HD)|(? & ? & HD)]]];
      apply (f_equal length) in HD; simpl in HD; rewrite ?length_app in HD;
      simpl in HD; lia.
Qed.


(** X4. When the URL of the manifest does not parse, the call fails with
    [Error creating registry request] and no request is sent; the client
    has been chosen from the environment all the same. *)
Theorem bad_url_sends_nothing w p registry image manifest username password past err :
  url_Parse_error (deleteURL registry image manifest) = Some err ->
  run w (remove registry image manifest username password p) past
  = ((Some (Errorf "Error creating registry request: %s" [OpError err]),
      with_client p (chosenClient p)), []).
Proof.
  intros Hurl.
  destruct (removeRegistryImage_cases url_Parse_error json_Unmarshal_TokenResponse
              parseAuthHeader w p registry image manifest username password past)
    as (res & tr & Hrun & HD).
  rewrite Hrun. inversion HD; simplify_eq; done.
Qed.

(** X5. One call sends at most three requests, never calls the engine, and
    the requests are, in this order, the DELETE of the manifest URL, a GET,
    and the DELETE of the same URL again. *)
Theorem at_most_three_requests w p registry image manifest username password past :
  (length (run w (remove registry image manifest username password p) past).2 <= 3)%nat
  /\ (forall i image' options,
        (run w (remove registry image manifest username password p) past).2 !! i
        <> Some (EvPush image' options))
  /\ (forall i c req,
        (run w (remove registry image manifest username password p) past).2 !! i
        = Some (EvHttp c req) ->
        if decide (i = 1%nat) then http.Method req = "GET"
        else http.Method req = "DELETE"
             /\ http.URL req = deleteURL registry image manifest).
Proof.
  destruct (removeRegistryImage_cases url_Parse_error json_Unmarshal_TokenResponse
              parseAuthHeader w p registry image manifest username password past)
    as (res & tr & Hrun & HD).
  rewrite Hrun; simpl.
  assert (Hinit : http.Method (initialRequest registry image manifest username password)
                  = "DELETE"
                  /\ http.URL (initialRequest registry image manifest username password)
                     = deleteURL registry image manifest).
  { unfold initialRequest. by rewrite withCredentials_Method, withCredentials_URL. }
  assert (Htok : forall challenge,
             http.Method (tokenRequest parseAuthHeader username password challenge) = "GET").
  { intros. unfold tokenRequest. by rewrite withCredentials_Method. }
  apply DeleteRun_requests in HD.
  destruct HD as [->|[->|[(ch & ->)|(ch & tok & ->)]]]; simpl.
  all: split; [lia|]; split.
  all: try (intros [|[|[|i]]] ? ?; simpl; congruence).
  all: intros [|[|[|i]]] c' req' Hi; simplify_eq/=; try done.
Qed.

(** X6. The call returns [nil] only on a success status from the registry:
    either the initial DELETE was the only request and was answered 202 or
    404, or three requests were sent and the retried DELETE was answered
    200. *)
Theorem success_needs_a_success_status w p registry image manifest username password
    past :
  (run w (remove registry image manifest username password p) past).1.1 = None ->
  (exists c req resp,
     (run w (remove registry image manifest username password p) past).2
       = [EvHttp c req]
     /\ roundTrip w past c req = Ok resp
     /\ (http.StatusCode resp = http.StatusAccepted
         \/ http.StatusCode resp = http.StatusNotFound))
  \/ (exists c req treq rreq resp tresp rresp,
        (run w (remove registry image manifest username password p) past).2
          = [EvHttp c req; EvHttp c treq; EvHttp c rreq]
        /\ roundTrip w past c req = Ok resp
        /\ http.StatusCode resp = http.StatusUnauthorized
        /\ roundTrip w (past ++ [EvHttp c req]) c treq = Ok tresp
        /\ http.StatusCode tresp = http.StatusOK
        /\ roundTrip w ((past ++ [EvHttp c req]) ++ [EvHttp c treq]) c rreq = Ok rresp
        /\ http.StatusCode rresp = http.StatusOK).
Proof.
  intros Hnil.
  destruct (removeRegistryImage_cases url_Parse_error json_Unmarshal_TokenResponse
              parseAuthHeader w p registry image manifest username password past)
    as (res & tr & Hrun & HD).
  rewrite Hrun in *; simpl in *; subst res.
  inversion HD as [| |resp|resp| | |resp ? ? ? ? ? ? HB]; simplify_eq.
  - left. eauto 10.
  - left. eauto 10.
  - inversion HB as [| | | | |tresp ? ? ? ? ? ? ? ? ? HR]; simplify_eq.
    inversion HR as [| |rresp]; simplify_eq.
    right. eexists _, _, _, _, resp, tresp, rresp. done.
Qed.

(** X7. A token response whose body does not decode makes the call fail
    with [Error parsing OAuth token response] and the decoder's error; the
    DELETE is not retried. *)
Theorem undecodable_token_stops w p registry image manifest username password past
    c req c' treq rest tresp body err :
  (run w (remove registry image manifest username password p) past).2
    = EvHttp c req :: EvHttp c' treq :: rest ->
  roundTrip w (past ++ [EvHttp c req]) c' treq = Ok tresp ->
  http.StatusCode tresp = http.StatusOK ->
  http.Body tresp = Ok body ->
  json_Unmarshal_TokenResponse body = Err err ->
  (run w (remove registry image manifest username password p) past).1.1
    = Some (Errorf "Error parsing OAuth token response: %s" [OpError err])
  /\ rest = [].
Proof.
  intros Htr Hresp Hcode Hbody Hjson.
  destruct (removeRegistryImage_cases url_Parse_error json_Unmarshal_TokenResponse
              parseAuthHeader w p registry image manifest username password past)
    as (res & tr & Hrun & HD).
  rewrite Hrun in *; simpl in *; subst tr.
  inversion HD as [| | | | | |? ? ? ? ? ? ? HB]; simplify_eq.
  inversion HB; simplify_eq; same_answer; first [done | congruence | split; congruence].
Qed.

(** X8. A token response whose body cannot be read makes the call fail with
    [Error reading response body] and the read error; the DELETE is not
    retried. *)
Theorem unreadable_token_stops w p registry image manifest username password past
    c req c' treq rest tresp err :
  (run w (remove registry image manifest username password p) past).2
    = EvHttp c req :: EvHttp c' treq :: rest ->
  roundTrip w (past ++ [EvHttp c req]) c' treq = Ok tresp ->
  http.StatusCode tresp = http.StatusOK ->
  http.Body tresp = Err err ->
  (run w (remove registry image manifest username password p) past).1.1
    = Some (Errorf "Error reading response body: %s" [OpError err])
  /\ rest = [].
Proof.
  intros Htr Hresp Hcode Hbody.
  destruct (removeRegistryImage_cases url_Parse_error json_Unmarshal_TokenResponse
              parseAuthHeader w p registry image manifest username password past)
    as (res & tr & Hrun & HD).
  rewrite Hrun in *; simpl in *; subst tr.
  inversion HD as [| | | | | |? ? ? ? ? ? ? HB]; simplify_eq.
  inversion HB; simplify_eq; same_answer; first [done | congruence | split; congruence].
Qed.


Lemma Encode_scope_service (service scope : string) :
  url.Encode (<["scope" := [scope]]> (<["service" := [service]]> ∅))
  = "scope=" +:+ url.QueryEscape scope +:+ "&service=" +:+ url.QueryEscape service.
Proof.
  unfold url.Encode.
  assert (Hperm : Permutation [("scope", [scope]); ("service", [service])]
                    (map_to_list (<["scope" := [scope]]>
                                    (<["service" := [service]]> (∅ : url.Values))))).
  { rewrite map_to_list_insert by done.
    rewrite map_to_list_insert by done.
    by rewrite map_to_list_empty. }
  apply Permutation_length_2_inv in Hperm.
  destruct Hperm as [->| ->]; vm_compute; reflexivity.
Qed.

(** X9. The token request goes to the challenge's realm, with the query
    [scope=...&service=...]: both values query-escaped, and [scope] before
    [service] because [Encode] sorts the keys; a key the challenge lacks
    gives an empty value. *)
Theorem token_request_url w p registry image manifest username password past
    c req c' treq rest resp :
  (run w (remove registry image manifest username password p) past).2
    = EvHttp c req :: EvHttp c' treq :: rest ->
  roundTrip w past c req = Ok resp ->
  http.Method treq = "GET"
  /\ http.URL treq
     = default EmptyString
         (parseAuthHeader (http.Get (http.Header_ resp) "www-authenticate") !! "realm")
       +:+ "?scope="
       +:+ url.QueryEscape
             (default EmptyString
                (parseAuthHeader (http.Get (http.Header_ resp) "www-authenticate")
                   !! "scope"))
       +:+ "&service="
       +:+ url.QueryEscape
             (default EmptyString
                (parseAuthHeader (http.Get (http.Header_ resp) "www-authenticate")
                   !! "service")).
Proof.
  intros Htr Hresp.
  destruct (removeRegistryImage_cases url_Parse_error json_Unmarshal_TokenResponse
              parseAuthHeader w p registry image manifest username password past)
    as (res & tr & Hrun & HD).
  rewrite Hrun in *; simpl in *; subst tr.
  inversion HD as [| | | | | |resp' ? ? ? ? ? ? HB]; simplify_eq.
  assert (resp' = resp) as -> by congruence.
  assert (treq = tokenRequest parseAuthHeader username password (challengeOf resp))
    as -> by (inversion HB; by simplify_eq).
  unfold tokenRequest. rewrite withCredentials_Method, withCredentials_URL. simpl.
  split; [done|].
  unfold tokenURL. rewrite Encode_scope_service. done.
Qed.

(** X10. An insecure client is never put back: when the process's client
    already skips verification, left there by an earlier call under
    [TF_ACC], every request of the call goes out through it and it is
    still in place afterwards, whatever the environment says now. *)
Theorem insecure_client_persists w p registry image manifest username password past :
  DefaultClient p = insecureClient ->
  sent_with insecureClient
    (run w (remove registry image manifest username password p) past).2
  /\ DefaultClient (run w (remove registry image manifest username password p) past).1.2
     = insecureClient.
Proof.
  intros Hclient.
  assert (Hchosen : chosenClient p = insecureClient).
  { unfold chosenClient. rewrite Hclient. by repeat case_match. }
  destruct (removeRegistryImage_cases url_Parse_error json_Unmarshal_TokenResponse
              parseAuthHeader w p registry image manifest username password past)
    as (res & tr & Hrun & HD).
  rewrite Hrun; simpl. rewrite Hchosen in *.
  split; [|done]. by eapply DeleteRun_sent_with.
Qed.

(** X21. Only the first [WWW-Authenticate] value of a 401 is looked at:
    when it does not begin with [Bearer], the call fails with [Bad
    credentials] after the one request, even if a later value of the header
    is a bearer challenge. *)
Theorem only_first_challenge_counts w p registry image manifest username password past
    c req rest resp first others :
  (run w (remove registry image manifest username password p) past).2
    = EvHttp c req :: rest ->
  roundTrip w past c req = Ok resp ->
  http.StatusCode resp = http.StatusUnauthorized ->
  http.Header_ resp !! "Www-Authenticate" = Some (first :: others) ->
  strings.HasPrefix first "Bearer" = false ->
  (run w (remove registry image manifest username password p) past).1.1
    = Some (Errorf ("Bad credentials: " +:+ http.Status resp) [])
  /\ rest = [].
Proof.
  intros Htr Hresp Hcode Hhdr Hfirst.
  assert (Hget : challengeOf resp = first).
  { unfold challengeOf, http.Get.
    change (http.CanonicalMIMEHeaderKey "www-authenticate") with "Www-Authenticate".
    by rewrite Hhdr. }
  destruct (removeRegistryImage_cases url_Parse_error json_Unmarshal_TokenResponse
              parseAuthHeader w p registry image manifest username password past)
    as (res & tr & Hrun & HD).
  rewrite Hrun in *; simpl in *; subst tr.
  inversion HD; simplify_eq; same_answer; status_facts; try done; try lia; congruence.
Qed.

(** With an empty user name, the first two requests of a run have no
    header. *)
Lemma DeleteRun_unauthenticated w c registry image manifest password past res tr
    i c' req :
  Delete w c registry image manifest EmptyString password past res tr ->
  tr !! i = Some (EvHttp c' req) ->
  (i < 2)%nat ->
  http.ReqHeader req = ∅.
Proof.
  intros HD Hi Hlt.
  apply DeleteRun_requests in HD.
  destruct HD as [->|[->|[(ch & ->)|(ch & tok & ->)]]];
    destruct i as [|[|i]]; simplify_eq/=; try lia; done.
Qed.

End RemoveRegistryImageMore.

(** ** More of delete, push and create *)

Lemma prefix_append (old rest : string) : String.prefix old (old +:+ rest) = true.
Proof.
  induction old as [|a old IH]; [by destruct rest|].
  change (String a old +:+ rest) with (String a (old +:+ rest)). simpl.
  by destruct (ascii_dec a a).
Qed.

Lemma drop_append (old rest : string) :
  strings.drop (String.length old) (old +:+ rest) = rest.
Proof. induction old as [|a old IH]; [reflexivity|]. exact IH. Qed.

(** [strings.Replace] with the text to replace at the start of the string. *)
Lemma Replace1_prefix (old rest : string) :
  strings.Replace1 (old +:+ rest) old EmptyString = rest.
Proof.
  assert (Hunfold : forall s,
             strings.Replace1 s old EmptyString
             = if strings.HasPrefix s old
               then EmptyString +:+ strings.drop (String.length old) s
               else match s with
                    | EmptyString => EmptyString
                    | String c s' => String c (strings.Replace1 s' old EmptyString)
                    end) by (by intros []).
  rewrite Hunfold. unfold strings.HasPrefix. by rewrite prefix_append, drop_append.
Qed.

Lemma Contains_library (repository : string) :
  strings.Contains ("library/" +:+ repository) "/" = true.
Proof. by destruct repository. Qed.

Section DeleteAndPushMore.

Variable url_Parse_error : string -> option error.
Variable json_Unmarshal_TokenResponse : string -> result TokenResponse.
Variable json_encodeString : string -> string.
Variable parseImageOptions : string -> ImageOptions.
Variable normalizeRegistryAddress : string -> string.
Variable parseAuthHeader : string -> gmap string string.
Variable processStreamingOutput : string -> option error.
Variable dataSourceDockerRegistryImageRead :
  ResourceData -> ProviderConfig -> M (option error * ResourceData).

Abbreviation delete :=
  (resourceDockerRegistryImageDelete url_Parse_error json_Unmarshal_TokenResponse
     parseImageOptions normalizeRegistryAddress parseAuthHeader).
Abbreviation push :=
  (pushImage json_encodeString parseImageOptions normalizeRegistryAddress
     processStreamingOutput).
Abbreviation create :=
  (resourceDockerRegistryImageCreate json_encodeString parseImageOptions
     normalizeRegistryAddress processStreamingOutput dataSourceDockerRegistryImageRead).
Abbreviation options := (deleteOptions parseImageOptions).
Abbreviation credentials := (deleteCredentials normalizeRegistryAddress).

(** The [removeRegistryImage] call of a delete. *)
Abbreviation removal d meta :=
  (removeRegistryImage url_Parse_error json_Unmarshal_TokenResponse parseAuthHeader
     (Registry (options (name d))) (Repository (options (name d))) (sha256_digest d)
     (credentials (AuthConfigs_ meta) (options (name d))).1
     (credentials (AuthConfigs_ meta) (options (name d))).2).

(** A delete without [keep_remote] is its [removeRegistryImage] call, with
    the error wrapped or the id cleared. *)
Lemma delete_run w d meta p past :
  keep_remote d = false ->
  run w (delete d meta p) past
  = ((match (run w (removal d meta p) past).1.1 with
      | Some err => (Some (Errorf "Unable to remove Docker image: %s" [OpError err]), d)
      | None => (None, SetId d EmptyString)
      end,
      (run w (removal d meta p) past).1.2),
     (run w (removal d meta p) past).2).
Proof.
  intros Hkeep. unfold resourceDockerRegistryImageDelete. rewrite Hkeep.
  destruct (deleteCredentials _ _ _) as [username password]; simpl.
  unfold mbind, M_bind, bind. rewrite run_bind; simpl.
  destruct (run w _ past) as [[[err|] p'] tr]; simpl; by rewrite app_nil_r.
Qed.

(** X11. A delete without [keep_remote] clears the resource id exactly when
    the removal succeeded; when it failed, the error is wrapped in [Unable
    to remove Docker image] and the resource data is left as it was. *)
Theorem delete_clears_id_on_success w d meta p past :
  keep_remote d = false ->
  ((run w (delete d meta p) past).1.1.1 = None
   /\ (run w (removal d meta p) past).1.1 = None
   /\ (run w (delete d meta p) past).1.1.2 = SetId d EmptyString)
  \/ (exists cause,
        (run w (removal d meta p) past).1.1 = Some cause
        /\ (run w (delete d meta p) past).1.1.1
           = Some (Errorf "Unable to remove Docker image: %s" [OpError cause])
        /\ (run w (delete d meta p) past).1.1.2 = d).
Proof.
  intros Hkeep. rewrite delete_run by done. simpl.
  destruct (run w (removal d meta p) past).1.1 as [cause|]; [right|left]; eauto.
Qed.

(** X12. The first request of a delete is the DELETE of
    [https://{registry}/v2/{repository}/manifests/{digest}]: the manifest
    is addressed by the recorded digest, and the tag plays no part. *)
Theorem delete_addresses_the_digest w d meta p past c req rest :
  keep_remote d = false ->
  (run w (delete d meta p) past).2 = EvHttp c req :: rest ->
  http.Method req = "DELETE"
  /\ http.URL req
     = "https://" +:+ Registry (options (name d)) +:+ "/v2/"
       +:+ Repository (options (name d)) +:+ "/manifests/" +:+ sha256_digest d.
Proof.
  intros Hkeep Htr. rewrite delete_run in Htr by done. simpl in Htr.
  destruct (removeRegistryImage_cases url_Parse_error json_Unmarshal_TokenResponse
              parseAuthHeader w p (Registry (options (name d)))
              (Repository (options (name d))) (sha256_digest d)
              (credentials (AuthConfigs_ meta) (options (name d))).1
              (credentials (AuthConfigs_ meta) (options (name d))).2 past)
    as (res & tr & Hrun & HD).
  rewrite Hrun in Htr; simpl in Htr; subst tr.
  apply DeleteRun_requests in HD.
  assert (req = initialRequest (Registry (options (name d)))
                  (Repository (options (name d))) (sha256_digest d)
                  (credentials (AuthConfigs_ meta) (options (name d))).1
                  (credentials (AuthConfigs_ meta) (options (name d))).2) as ->.
  { destruct HD as [HD|[HD|[(? & HD)|(? & ? & HD)]]]; by simplify_eq. }
  unfold initialRequest. by rewrite withCredentials_Method, withCredentials_URL.
Qed.

(** X13. The options a delete works with always name a registry and a tag,
    and on the Docker hub the repository always has a namespace. *)
Theorem deleteOptions_invariants image :
  Registry (options image) <> EmptyString
  /\ Tag (options image) <> EmptyString
  /\ (Registry (options image) = "registry.hub.docker.com" ->
      strings.Contains (Repository (options image)) "/" = true).
Proof.
  unfold deleteOptions.
  destruct (String.eqb_spec (Registry (parseImageOptions image)) EmptyString) as [He|Hne];
    cbn [Registry Repository Tag with_Registry with_Repository with_Tag].
  - change (String.eqb "registry.hub.docker.com" "registry.hub.docker.com") with true.
    destruct (strings.Contains (Repository (parseImageOptions image)) "/") eqn:Hc;
      cbn [negb Registry Repository Tag with_Registry with_Repository with_Tag];
      destruct (String.eqb_spec (Tag (parseImageOptions image)) EmptyString);
      cbn [Registry Repository Tag with_Registry with_Repository with_Tag];
      repeat split; try done; intros _; apply Contains_library.
  - destruct (String.eqb_spec (Registry (parseImageOptions image))
                "registry.hub.docker.com") as [Hhub|Hnhub].
    + destruct (strings.Contains _ "/") eqn:Hc;
        cbn [negb Registry Repository Tag with_Registry with_Repository with_Tag];
        destruct (String.eqb_spec (Tag (parseImageOptions image)) EmptyString);
        cbn [Registry Repository Tag with_Registry with_Repository with_Tag];
        repeat split; try done; intros _; apply Contains_library.
    + cbn [Registry Repository Tag with_Registry with_Repository with_Tag].
      destruct (String.eqb_spec (Tag (parseImageOptions image)) EmptyString);
        cbn [Registry Repository Tag with_Registry with_Repository with_Tag];
        repeat split; done.
Qed.

(** X14. When the parsed repository starts with the registry and a slash,
    the delete works with the rest: the registry is filtered out, and the
    [library/] prefix is added only on the Docker hub and only to a rest of
    one segment. *)
Theorem registry_prefix_is_stripped image registry path :
  Registry (parseImageOptions image) = registry ->
  registry <> EmptyString ->
  Repository (parseImageOptions image) = registry +:+ "/" +:+ path ->
  Registry (options image) = registry
  /\ Repository (options image)
     = (if String.eqb registry "registry.hub.docker.com"
           && negb (strings.Contains path "/")
        then "library/" +:+ path else path).
Proof.
  intros Hreg Hne Hrepo. subst registry. unfold deleteOptions.
  rewrite Hrepo.
  destruct (String.eqb_spec (Registry (parseImageOptions image)) EmptyString) as [|_];
    [done|].
  replace (Registry (parseImageOptions image) +:+ "/" +:+ path)
    with ((Registry (parseImageOptions image) +:+ "/") +:+ path)
    by (generalize (Registry (parseImageOptions image)); intros r;
        induction r as [|a r IH]; [done|];
        change (String a r +:+ "/" +:+ path) with (String a (r +:+ "/" +:+ path));
        change ((String a r +:+ "/") +:+ path) with (String a ((r +:+ "/") +:+ path));
        by rewrite IH).
  rewrite Replace1_prefix.
  cbn [Registry Repository Tag with_Registry with_Repository with_Tag].
  destruct (String.eqb (Registry (parseImageOptions image)) "registry.hub.docker.com");
    cbn [andb Registry Repository Tag with_Registry with_Repository with_Tag].
  - destruct (strings.Contains path "/");
      cbn [negb Registry Repository Tag with_Registry with_Repository with_Tag];
      by case_match.
  - by case_match.
Qed.

(** X15. When the normalized form of the hub's host is the key the push
    uses for names without a registry, a push and a delete of one image
    resolve the same user name and password from the table. *)
Theorem push_and_delete_share_credentials authConfig image :
  normalizeRegistryAddress "registry.hub.docker.com" = "https://registry.hub.docker.com" ->
  credentials authConfig (options image)
  = (types.Username (pushAuth parseImageOptions normalizeRegistryAddress authConfig image),
     types.Password (pushAuth parseImageOptions normalizeRegistryAddress authConfig image)).
Proof.
  intros Hhub.
  assert (Hkey : normalizeRegistryAddress (Registry (options image))
                 = if String.eqb (Registry (parseImageOptions image)) EmptyString
                   then "https://registry.hub.docker.com"
                   else normalizeRegistryAddress (Registry (parseImageOptions image))).
  { unfold deleteOptions.
    destruct (String.eqb (Registry (parseImageOptions image)) EmptyString);
      cbn [Registry Repository Tag with_Registry with_Repository with_Tag].
    - change (String.eqb "registry.hub.docker.com" "registry.hub.docker.com") with true.
      by repeat (case_match;
                 cbn [Registry Repository Tag with_Registry with_Repository with_Tag]).
    - by repeat (case_match;
                 cbn [Registry Repository Tag with_Registry with_Repository with_Tag]). }
  unfold deleteCredentials, pushAuth. rewrite Hkey.
  destruct (String.eqb (Registry (parseImageOptions image)) EmptyString);
    cbn [negb]; by case_match.
Qed.

(** X16. When the table has no entry under the normalized address of the
    registry, the first two requests of a delete, the DELETE and the token
    GET, carry no header: the registry is asked without credentials. *)
Theorem delete_without_entry_is_anonymous w d meta p past i c req :
  keep_remote d = false ->
  Configs (AuthConfigs_ meta) !! normalizeRegistryAddress (Registry (options (name d)))
    = None ->
  (run w (delete d meta p) past).2 !! i = Some (EvHttp c req) ->
  (i < 2)%nat ->
  http.ReqHeader req = ∅.
Proof.
  intros Hkeep Hmiss Hi Hlt. rewrite delete_run in Hi by done. simpl in Hi.
  assert (Hcred : credentials (AuthConfigs_ meta) (options (name d))
                  = (EmptyString, EmptyString))
    by (unfold deleteCredentials; by rewrite Hmiss).
  rewrite Hcred in Hi. simpl in Hi.
  destruct (removeRegistryImage_cases url_Parse_error json_Unmarshal_TokenResponse
              parseAuthHeader w p (Registry (options (name d)))
              (Repository (options (name d))) (sha256_digest d)
              EmptyString EmptyString past)
    as (res & tr & Hrun & HD).
  rewrite Hrun in Hi; simpl in Hi.
  by eapply DeleteRun_unauthenticated.
Qed.

(** A push leaves the process as it was. *)
Lemma push_is_one_engine_call_aux w authConfig image p past :
  exists tr res, run w (push authConfig image p) past = ((res, p), tr).
Proof.
  unfold pushImage. cbn [json.Marshal_AuthConfig]. unfold_M. cbn [run Prog_bind fst snd].
  destruct (enginePush w past image _); by eexists _, _.
Qed.

(** X17. A push is one call of the engine and no HTTP request, whatever the
    table holds: the image goes out with the base64 of the marshalled auth
    config.  An error of the engine comes back as [error pulling image]
    with the image's name; otherwise the verdict is that of the streamed
    output. *)
Theorem push_is_one_engine_call w authConfig image p past :
  exists encodedJSON,
    json.Marshal_AuthConfig json_encodeString
      (pushAuth parseImageOptions normalizeRegistryAddress authConfig image)
    = Ok encodedJSON
    /\ run w (push authConfig image p) past
       = ((match enginePush w past image
                   {| types.RegistryAuth :=
                        base64.URLEncoding_EncodeToString encodedJSON |} with
           | Err err =>
               Some (Errorf "error pulling image %s: %s" [OpString image; OpError err])
           | Ok out => processStreamingOutput out
           end, p),
          [EvPush image
             {| types.RegistryAuth := base64.URLEncoding_EncodeToString encodedJSON |}]).
Proof.
  eexists. split; [reflexivity|].
  unfold pushImage. cbn [json.Marshal_AuthConfig]. unfold_M. cbn [run Prog_bind fst snd].
  by destruct (enginePush w past image _).
Qed.

(** X22. A push of an image whose registry has no entry in the table is
    anonymous, whatever else the table holds: the engine gets the header
    [e30=], and the hub's credentials are not used for another registry. *)
Theorem push_without_entry_is_anonymous w authConfig image p past :
  Configs authConfig
    !! (if String.eqb (Registry (parseImageOptions image)) EmptyString
        then "https://registry.hub.docker.com"
        else normalizeRegistryAddress (Registry (parseImageOptions image)))
  = None ->
  pushAuth parseImageOptions normalizeRegistryAddress authConfig image
  = types.AuthConfig_zero
  /\ (run w (push authConfig image p) past).2
     = [EvPush image {| types.RegistryAuth := "e30=" |}].
Proof.
  intros Hmiss.
  assert (Hauth : pushAuth parseImageOptions normalizeRegistryAddress authConfig image
                  = types.AuthConfig_zero).
  { unfold pushAuth.
    destruct (String.eqb (Registry (parseImageOptions image)) EmptyString);
      cbn [negb]; by rewrite Hmiss. }
  split; [done|].
  unfold pushImage. rewrite Hauth. unfold_M; simpl.
  by destruct (enginePush w past image _).
Qed.

(** The push of a create. *)
Abbreviation pushing d meta := (push (AuthConfigs_ meta) (name d)).

(** X18. When the push fails, the create returns its error wrapped in
    [Unable to push Docker image] and stops there: the calls of the run are
    those of the push, the read does not run, and the resource data and the
    process are as before. *)
Theorem create_stops_when_push_fails w d meta p past err :
  (run w (pushing d meta p) past).1.1 = Some err ->
  run w (create d meta p) past
  = (((Some (Errorf "Unable to push Docker image: %s" [OpError err]), d), p),
     (run w (pushing d meta p) past).2).
Proof.
  intros Hpush. unfold resourceDockerRegistryImageCreate.
  unfold mbind at 1, M_bind at 1, bind at 1. rewrite run_bind.
  destruct (push_is_one_engine_call_aux w (AuthConfigs_ meta) (name d) p past)
    as (tr & res & Hrun).
  rewrite Hrun in *. simpl in *. subst res. simpl. by rewrite app_nil_r.
Qed.

(** X19. When the push succeeds, the create goes on with the read: the
    result is the read's, and the calls are those of the push followed by
    those of the read. *)
Theorem create_reads_after_push w d meta p past :
  (run w (pushing d meta p) past).1.1 = None ->
  run w (create d meta p) past
  = ((run w (dataSourceDockerRegistryImageRead d meta p)
        (past ++ (run w (pushing d meta p) past).2)).1,
     (run w (pushing d meta p) past).2
     ++ (run w (dataSourceDockerRegistryImageRead d meta p)
           (past ++ (run w (pushing d meta p) past).2)).2).
Proof.
  intros Hpush. unfold resourceDockerRegistryImageCreate.
  unfold mbind at 1, M_bind at 1, bind at 1. rewrite run_bind.
  destruct (push_is_one_engine_call_aux w (AuthConfigs_ meta) (name d) p past)
    as (tr & res & Hrun).
  rewrite Hrun in *. simpl in *. by subst res.
Qed.

End DeleteAndPushMore.

(** ** The schema *)

(** X20. Every attribute of the resource except [keep_remote] is computed
    or forces a new resource, and [keep_remote] is an optional attribute
    that does neither: an update can only come from toggling [keep_remote],
    as the comment in the update function says.  The attributes the
    functions read are declared with the types they are asserted to
    have. *)
Theorem only_keep_remote_can_be_updated
    (url_Parse_error : string -> option error)
    (json_Unmarshal_TokenResponse : string -> result TokenResponse)
    (json_encodeString : string -> string)
    (parseImageOptions : string -> ImageOptions)
    (normalizeRegistryAddress : string -> string)
    (parseAuthHeader : string -> gmap string string)
    (processStreamingOutput : string -> option error)
    (dataSourceDockerRegistryImageRead :
       ResourceData -> ProviderConfig -> M (option error * ResourceData)) :
  (forall key s,
      schema.Schema_
        (resourceDockerRegistryImage url_Parse_error json_Unmarshal_TokenResponse
           json_encodeString parseImageOptions normalizeRegistryAddress parseAuthHeader
           processStreamingOutput dataSourceDockerRegistryImageRead) !! key = Some s ->
      key <> "keep_remote" ->
      schema.ForceNew s = true \/ schema.Computed s = true)
  /\ (exists s,
        schema.Schema_
          (resourceDockerRegistryImage url_Parse_error json_Unmarshal_TokenResponse
             json_encodeString parseImageOptions normalizeRegistryAddress parseAuthHeader
             processStreamingOutput dataSourceDockerRegistryImageRead) !! "keep_remote"
        = Some s
        /\ schema.Optional s = true
        /\ schema.ForceNew s = false
        /\ schema.Computed s = false)
  /\ (forall key ty,
        In (key, ty) attributes_read ->
        exists s,
          schema.Schema_
            (resourceDockerRegistryImage url_Parse_error json_Unmarshal_TokenResponse
               json_encodeString parseImageOptions normalizeRegistryAddress
               parseAuthHeader processStreamingOutput dataSourceDockerRegistryImageRead)
            !! key = Some s
          /\ schema.Type_ s = ty).
Proof.
  cbn [resourceDockerRegistryImage schema.Schema_].
  split; [|split].
  - intros key s Hs Hkey.
    repeat (apply lookup_insert_Some in Hs as [[<- <-]|[_ Hs]]; [by auto|]).
    apply lookup_singleton_Some in Hs as [<- <-]. done.
  - eexists. split; [vm_compute; reflexivity|done].
  - intros key ty [Hin|[Hin|[Hin|[]]]]; simplify_eq; eexists;
      (split; [vm_compute; reflexivity|done]).
Qed.

(** ** The further properties on concrete runs *)

Lemma accepted_is_success_witness :
  (run (scripted [response 202 "202 Accepted" None EmptyString])
     (removeRegistryImage every_url_parses token_is_body hub_challenge
        "registry.hub.docker.com" "library/consul" "sha256:0a" "alice" "secret"
        (process_of ∅)) []).1.1 = None
  /\ @nil Event = [].
Proof.
  apply (accepted_is_success every_url_parses token_is_body hub_challenge
           (scripted [response 202 "202 Accepted" None EmptyString]) (process_of ∅)
           "registry.hub.docker.com" "library/consul" "sha256:0a" "alice" "secret" []
           strictClient
           (initialRequest "registry.hub.docker.com" "library/consul" "sha256:0a"
              "alice" "secret")
           []
           {| http.StatusCode := 202; http.Status := "202 Accepted";
              http.Header_ := ∅; http.Body := Ok EmptyString |}).
  all: vm_compute; reflexivity.
Defined.

Lemma unexpected_status_is_an_error_witness :
  (run (scripted [response 200 "200 OK" None EmptyString])
     (removeRegistryImage every_url_parses token_is_body hub_challenge
        "registry.hub.docker.com" "library/consul" "sha256:0a" "alice" "secret"
        (process_of ∅)) []).1.1
  = Some (Errorf "Got bad response from registry: 200 OK" [])
  /\ @nil Event = [].
Proof.
  apply (unexpected_status_is_an_error every_url_parses token_is_body hub_challenge
           (scripted [response 200 "200 OK" None EmptyString]) (process_of ∅)
           "registry.hub.docker.com" "library/consul" "sha256:0a" "alice" "secret" []
           strictClient
           (initialRequest "registry.hub.docker.com" "library/consul" "sha256:0a"
              "alice" "secret")
           []
           {| http.StatusCode := 200; http.Status := "200 OK";
              http.Header_ := ∅; http.Body := Ok EmptyString |}).
  1-2: vm_compute; reflexivity.
  all: vm_compute; discriminate.
Defined.

Lemma transport_error_stops_witness :
  (run (scripted [unauthorized_bearer])
     (removeRegistryImage every_url_parses token_is_body hub_challenge
        "registry.hub.docker.com" "library/consul" "sha256:0a" "alice" "secret"
        (process_of ∅)) []).1.1
  = Some (Errorf "Error during registry request: %s" [OpError (LibError "connection refused")])
  /\ @nil Event = [].
Proof.
  apply (transport_error_stops every_url_parses token_is_body hub_challenge
           (scripted [unauthorized_bearer]) (process_of ∅)
           "registry.hub.docker.com" "library/consul" "sha256:0a" "alice" "secret" []
           [EvHttp strictClient
              (initialRequest "registry.hub.docker.com" "library/consul" "sha256:0a"
                 "alice" "secret")]
           strictClient
           (tokenRequest hub_challenge "alice" "secret" "Bearer realm=auth")
           []
           (LibError "connection refused")).
  all: vm_compute; reflexivity.
Defined.

Lemma bad_url_sends_nothing_witness :
  run (scripted [])
    (removeRegistryImage (fun _ => Some (LibError "invalid URL escape")) token_is_body
       hub_challenge "registry.hub.docker.com" "library/%zz" "sha256:0a" "alice" "secret"
       (process_of ∅)) []
  = ((Some (Errorf "Error creating registry request: %s"
              [OpError (LibError "invalid URL escape")]),
      with_client (process_of ∅) (chosenClient (process_of ∅))), []).
Proof.
  apply (bad_url_sends_nothing (fun _ => Some (LibError "invalid URL escape")) token_is_body
           hub_challenge (scripted []) (process_of ∅)).
  reflexivity.
Defined.

Lemma success_needs_a_success_status_witness :
  (exists c req resp,
     (run (scripted (bearer_script 200 "200 OK"))
        (removeRegistryImage every_url_parses token_is_body hub_challenge
           "registry.hub.docker.com" "library/consul" "sha256:0a" "alice" "secret"
           (process_of ∅)) []).2
       = [EvHttp c req]
     /\ roundTrip (scripted (bearer_script 200 "200 OK")) [] c req = Ok resp
     /\ (http.StatusCode resp = http.StatusAccepted
         \/ http.StatusCode resp = http.StatusNotFound))
  \/ (exists c req treq rreq resp tresp rresp,
        (run (scripted (bearer_script 200 "200 OK"))
           (removeRegistryImage every_url_parses token_is_body hub_challenge
              "registry.hub.docker.com" "library/consul" "sha256:0a" "alice" "secret"
              (process_of ∅)) []).2
          = [EvHttp c req; EvHttp c treq; EvHttp c rreq]
        /\ roundTrip (scripted (bearer_script 200 "200 OK")) [] c req = Ok resp
        /\ http.StatusCode resp = http.StatusUnauthorized
        /\ roundTrip (scripted (bearer_script 200 "200 OK")) ([] ++ [EvHttp c req]) c treq
           = Ok tresp
        /\ http.StatusCode tresp = http.StatusOK
        /\ roundTrip (scripted (bearer_script 200 "200 OK"))
             (([] ++ [EvHttp c req]) ++ [EvHttp c treq]) c rreq = Ok rresp
        /\ http.StatusCode rresp = http.StatusOK).
Proof.
  apply (success_needs_a_success_status every_url_parses token_is_body hub_challenge
           (scripted (bearer_script 200 "200 OK")) (process_of ∅)
           "registry.hub.docker.com" "library/consul" "sha256:0a" "alice" "secret" []).
  vm_compute; reflexivity.
Defined.

Lemma undecodable_token_stops_witness :
  (run (scripted (bearer_script 200 "200 OK"))
     (removeRegistryImage every_url_parses
        (fun _ => Err (LibError "invalid character")) hub_challenge
        "registry.hub.docker.com" "library/consul" "sha256:0a" "alice" "secret"
        (process_of ∅)) []).1.1
  = Some (Errorf "Error parsing OAuth token response: %s"
            [OpError (LibError "invalid character")])
  /\ @nil Event = [].
Proof.
  apply (undecodable_token_stops every_url_parses
           (fun _ => Err (LibError "invalid character")) hub_challenge
           (scripted (bearer_script 200 "200 OK")) (process_of ∅)
           "registry.hub.docker.com" "library/consul" "sha256:0a" "alice" "secret" []
           strictClient
           (initialRequest "registry.hub.docker.com" "library/consul" "sha256:0a"
              "alice" "secret")
           strictClient
           (tokenRequest hub_challenge "alice" "secret" "Bearer realm=auth")
           []
           {| http.StatusCode := 200; http.Status := "200 OK";
              http.Header_ := ∅; http.Body := Ok "t0k3n" |}
           "t0k3n" (LibError "invalid character")).
  all: vm_compute; reflexivity.
Defined.

Lemma unreadable_token_stops_witness :
  (run (scripted [unauthorized_bearer;
                  Ok {| http.StatusCode := 200; http.Status := "200 OK";
                        http.Header_ := ∅;
                        http.Body := Err (LibError "unexpected EOF") |}])
     (removeRegistryImage every_url_parses token_is_body hub_challenge
        "registry.hub.docker.com" "library/consul" "sha256:0a" "alice" "secret"
        (process_of ∅)) []).1.1
  = Some (Errorf "Error reading response body: %s" [OpError (LibError "unexpected EOF")])
  /\ @nil Event = [].
Proof.
  apply (unreadable_token_stops every_url_parses token_is_body hub_challenge
           (scripted [unauthorized_bearer;
                      Ok {| http.StatusCode := 200; http.Status := "200 OK";
                            http.Header_ := ∅;
                            http.Body := Err (LibError "unexpected EOF") |}])
           (process_of ∅)
           "registry.hub.docker.com" "library/consul" "sha256:0a" "alice" "secret" []
           strictClient
           (initialRequest "registry.hub.docker.com" "library/consul" "sha256:0a"
              "alice" "secret")
           strictClient
           (tokenRequest hub_challenge "alice" "secret" "Bearer realm=auth")
           []
           {| http.StatusCode := 200; http.Status := "200 OK";
              http.Header_ := ∅; http.Body := Err (LibError "unexpected EOF") |}
           (LibError "unexpected EOF")).
  all: vm_compute; reflexivity.
Defined.

Lemma token_request_url_witness :
  http.Method (tokenRequest hub_challenge "alice" "secret" "Bearer realm=auth") = "GET"
  /\ http.URL (tokenRequest hub_challenge "alice" "secret" "Bearer realm=auth")
     = "https://auth.docker.io/token"
       +:+ "?scope=" +:+ "repository%3Alibrary%2Fconsul%3A%2A"
       +:+ "&service=" +:+ "registry.docker.io".
Proof.
  apply (token_request_url every_url_parses token_is_body hub_challenge
           (scripted (bearer_script 200 "200 OK")) (process_of ∅)
           "registry.hub.docker.com" "library/consul" "sha256:0a" "alice" "secret" []
           strictClient
           (initialRequest "registry.hub.docker.com" "library/consul" "sha256:0a"
              "alice" "secret")
           strictClient
           (tokenRequest hub_challenge "alice" "secret" "Bearer realm=auth")
           [EvHttp strictClient
              (retryRequest "registry.hub.docker.com" "library/consul" "sha256:0a"
                 "alice" "secret" {| Token := "t0k3n" |})]
           {| http.StatusCode := 401; http.Status := "401 Unauthorized";
              http.Header_ := {[ "Www-Authenticate" := ["Bearer realm=auth"] ]};
              http.Body := Ok EmptyString |}).
  all: vm_compute; reflexivity.
Defined.

Lemma insecure_client_persists_witness :
  sent_with insecureClient
    (run (scripted [response 202 "202 Accepted" None EmptyString])
       (removeRegistryImage every_url_parses token_is_body hub_challenge
          "localhost:5000" "consul" "sha256:0a" EmptyString EmptyString
          {| environ := ∅; DefaultClient := insecureClient |}) []).2
  /\ DefaultClient
       (run (scripted [response 202 "202 Accepted" None EmptyString])
          (removeRegistryImage every_url_parses token_is_body hub_challenge
             "localhost:5000" "consul" "sha256:0a" EmptyString EmptyString
             {| environ := ∅; DefaultClient := insecureClient |}) []).1.2
     = insecureClient.
Proof.
  apply (insecure_client_persists every_url_parses token_is_body hub_challenge
           (scripted [response 202 "202 Accepted" None EmptyString])
           {| environ := ∅; DefaultClient := insecureClient |}).
  reflexivity.
Defined.

Lemma delete_clears_id_on_success_witness :
  (run (scripted [response 202 "202 Accepted" None EmptyString])
     (resourceDockerRegistryImageDelete every_url_parses token_is_body
        spec_parseImageOptions spec_normalizeRegistryAddress hub_challenge
        {| name := "consul"; sha256_digest := "sha256:0a"; keep_remote := false;
           Id := "sha256:0a" |}
        {| AuthConfigs_ := {| Configs := ∅ |} |} (process_of ∅)) []).1.1
  = (None,
     {| name := "consul"; sha256_digest := "sha256:0a"; keep_remote := false;
        Id := EmptyString |}).
Proof.
  destruct (delete_clears_id_on_success every_url_parses token_is_body
              spec_parseImageOptions spec_normalizeRegistryAddress hub_challenge
              (scripted [response 202 "202 Accepted" None EmptyString])
              {| name := "consul"; sha256_digest := "sha256:0a"; keep_remote := false;
                 Id := "sha256:0a" |}
              {| AuthConfigs_ := {| Configs := ∅ |} |} (process_of ∅) [] eq_refl)
    as [(Hres & _ & Hd)|(cause & Hcause & _)].
  - destruct (run _ _ _) as [[[res d'] p'] tr]. simpl in *. by subst.
  - vm_compute in Hcause. discriminate Hcause.
Defined.

Lemma delete_addresses_the_digest_witness :
  http.Method (initialRequest "registry.hub.docker.com" "library/consul" "sha256:0a"
                 EmptyString EmptyString) = "DELETE"
  /\ http.URL (initialRequest "registry.hub.docker.com" "library/consul" "sha256:0a"
                 EmptyString EmptyString)
     = "https://registry.hub.docker.com/v2/library/consul/manifests/sha256:0a".
Proof.
  apply (delete_addresses_the_digest every_url_parses token_is_body
           spec_parseImageOptions spec_normalizeRegistryAddress hub_challenge
           (scripted [response 202 "202 Accepted" None EmptyString])
           {| name := "consul:1.4"; sha256_digest := "sha256:0a"; keep_remote := false;
              Id := "sha256:0a" |}
           {| AuthConfigs_ := {| Configs := ∅ |} |} (process_of ∅) []
           strictClient
           (initialRequest "registry.hub.docker.com" "library/consul" "sha256:0a"
              EmptyString EmptyString)
           []).
  all: vm_compute; reflexivity.
Defined.

Lemma deleteOptions_invariants_witness :
  strings.Contains (Repository (deleteOptions spec_parseImageOptions "consul")) "/" = true.
Proof.
  apply (deleteOptions_invariants spec_parseImageOptions "consul").
  reflexivity.
Defined.

Lemma registry_prefix_is_stripped_witness :
  Registry
    (deleteOptions
       (fun image => {| Registry := "quay.io"; Repository := image; Tag := EmptyString;
                        Digest := EmptyString |})
       "quay.io/acme/app")
  = "quay.io"
  /\ Repository
       (deleteOptions
          (fun image => {| Registry := "quay.io"; Repository := image;
                           Tag := EmptyString; Digest := EmptyString |})
          "quay.io/acme/app")
     = "acme/app".
Proof.
  apply (registry_prefix_is_stripped
           (fun image => {| Registry := "quay.io"; Repository := image;
                            Tag := EmptyString; Digest := EmptyString |})
           "quay.io/acme/app" "quay.io" "acme/app").
  - reflexivity.
  - discriminate.
  - reflexivity.
Defined.

Lemma push_and_delete_share_credentials_witness :
  deleteCredentials spec_normalizeRegistryAddress
    {| Configs := {[ "https://registry.hub.docker.com" :=
                       {| types.Username := "alice"; types.Password := "secret";
                          types.Auth := EmptyString; types.Email := EmptyString;
                          types.ServerAddress := EmptyString;
                          types.IdentityToken := EmptyString;
                          types.RegistryToken := EmptyString |} ]} |}
    (deleteOptions spec_parseImageOptions "consul")
  = (types.Username
       (pushAuth spec_parseImageOptions spec_normalizeRegistryAddress
          {| Configs := {[ "https://registry.hub.docker.com" :=
                             {| types.Username := "alice"; types.Password := "secret";
                                types.Auth := EmptyString; types.Email := EmptyString;
                                types.ServerAddress := EmptyString;
                                types.IdentityToken := EmptyString;
                                types.RegistryToken := EmptyString |} ]} |}
          "consul"),
     types.Password
       (pushAuth spec_parseImageOptions spec_normalizeRegistryAddress
          {| Configs := {[ "https://registry.hub.docker.com" :=
                             {| types.Username := "alice"; types.Password := "secret";
                                types.Auth := EmptyString; types.Email := EmptyString;
                                types.ServerAddress := EmptyString;
                                types.IdentityToken := EmptyString;
                                types.RegistryToken := EmptyString |} ]} |}
          "consul")).
Proof.
  apply (push_and_delete_share_credentials spec_parseImageOptions
           spec_normalizeRegistryAddress).
  reflexivity.
Defined.

Lemma delete_without_entry_is_anonymous_witness :
  http.ReqHeader (initialRequest "registry.hub.docker.com" "library/consul" "sha256:0a"
                    EmptyString EmptyString) = ∅.
Proof.
  apply (delete_without_entry_is_anonymous every_url_parses token_is_body
           spec_parseImageOptions spec_normalizeRegistryAddress hub_challenge
           (scripted [response 202 "202 Accepted" None EmptyString])
           {| name := "consul"; sha256_digest := "sha256:0a"; keep_remote := false;
              Id := "sha256:0a" |}
           {| AuthConfigs_ := {| Configs := ∅ |} |} (process_of ∅) []
           0%nat strictClient).
  - reflexivity.
  - vm_compute; reflexivity.
  - vm_compute; reflexivity.
  - lia.
Defined.

Lemma create_stops_when_push_fails_witness :
  run {| roundTrip := fun _ _ _ => Err (LibError "connection refused");
         enginePush := fun _ _ _ => Err (LibError "denied") |}
    (resourceDockerRegistryImageCreate (fun s => json.quoted s) spec_parseImageOptions
       spec_normalizeRegistryAddress (fun _ => None)
       (fun d _ => mret (None, SetId d (sha256_digest d)))
       {| name := "quay.io/acme/app:1.0"; sha256_digest := "sha256:0a";
          keep_remote := false; Id := EmptyString |}
       {| AuthConfigs_ := {| Configs := ∅ |} |} (process_of ∅)) []
  = (((Some (Errorf "Unable to push Docker image: %s"
               [OpError (Errorf "error pulling image %s: %s"
                           [OpString "quay.io/acme/app:1.0";
                            OpError (LibError "denied")])]),
       {| name := "quay.io/acme/app:1.0"; sha256_digest := "sha256:0a";
          keep_remote := false; Id := EmptyString |}),
      process_of ∅),
     [EvPush "quay.io/acme/app:1.0" {| types.RegistryAuth := "e30=" |}]).
Proof.
  apply (create_stops_when_push_fails (fun s => json.quoted s) spec_parseImageOptions
           spec_normalizeRegistryAddress (fun _ => None)
           (fun d _ => mret (None, SetId d (sha256_digest d)))
           {| roundTrip := fun _ _ _ => Err (LibError "connection refused");
              enginePush := fun _ _ _ => Err (LibError "denied") |}).
  reflexivity.
Defined.

Lemma create_reads_after_push_witness :
  run (scripted [])
    (resourceDockerRegistryImageCreate (fun s => json.quoted s) spec_parseImageOptions
       spec_normalizeRegistryAddress (fun _ => None)
       (fun d _ => mret (None, SetId d (sha256_digest d)))
       {| name := "quay.io/acme/app:1.0"; sha256_digest := "sha256:0a";
          keep_remote := false; Id := EmptyString |}
       {| AuthConfigs_ := {| Configs := ∅ |} |} (process_of ∅)) []
  = (((None,
       {| name := "quay.io/acme/app:1.0"; sha256_digest := "sha256:0a";
          keep_remote := false; Id := "sha256:0a" |}),
      process_of ∅),
     [EvPush "quay.io/acme/app:1.0" {| types.RegistryAuth := "e30=" |}] ++ []).
Proof.
  etrans.
  - apply (create_reads_after_push (fun s => json.quoted s) spec_parseImageOptions
             spec_normalizeRegistryAddress (fun _ => None)
             (fun d _ => mret (None, SetId d (sha256_digest d)))
             (scripted [])).
    reflexivity.
  - vm_compute; reflexivity.
Defined.

Lemma only_keep_remote_can_be_updated_witness :
  schema.ForceNew (schema.mkSchema schema.TypeString true false false true None None) = true
  \/ schema.Computed (schema.mkSchema schema.TypeString true false false true None None)
     = true.
Proof.
  apply (proj1 (only_keep_remote_can_be_updated every_url_parses token_is_body
                  (fun s => json.quoted s) spec_parseImageOptions
                  spec_normalizeRegistryAddress hub_challenge (fun _ => None)
                  (fun d _ => mret (None, d))) "name").
  - vm_compute; reflexivity.
  - discriminate.
Defined.

Lemma only_first_challenge_counts_witness :
  (run (scripted [Ok {| http.StatusCode := 401; http.Status := "401 Unauthorized";
                        http.Header_ :=
                          {[ "Www-Authenticate" := ["Basic realm=hub"; "Bearer realm=auth"] ]};
                        http.Body := Ok EmptyString |}])
     (removeRegistryImage every_url_parses token_is_body hub_challenge
        "registry.hub.docker.com" "library/consul" "sha256:0a" "alice" "secret"
        (process_of ∅)) []).1.1
  = Some (Errorf "Bad credentials: 401 Unauthorized" [])
  /\ @nil Event = [].
Proof.
  apply (only_first_challenge_counts every_url_parses token_is_body hub_challenge
           (scripted [Ok {| http.StatusCode := 401; http.Status := "401 Unauthorized";
                            http.Header_ :=
                              {[ "Www-Authenticate" :=
                                   ["Basic realm=hub"; "Bearer realm=auth"] ]};
                            http.Body := Ok EmptyString |}])
           (process_of ∅)
           "registry.hub.docker.com" "library/consul" "sha256:0a" "alice" "secret" []
           strictClient
           (initialRequest "registry.hub.docker.com" "library/consul" "sha256:0a"
              "alice" "secret")
           []
           {| http.StatusCode := 401; http.Status := "401 Unauthorized";
              http.Header_ :=
                {[ "Www-Authenticate" := ["Basic realm=hub"; "Bearer realm=auth"] ]};
              http.Body := Ok EmptyString |}
           "Basic realm=hub" ["Bearer realm=auth"]).
  all: vm_compute; reflexivity.
Defined.

Lemma push_without_entry_is_anonymous_witness :
  pushAuth spec_parseImageOptions spec_normalizeRegistryAddress
    {| Configs := {[ "https://registry.hub.docker.com" :=
                       {| types.Username := "alice"; types.Password := "secret";
                          types.Auth := EmptyString; types.Email := EmptyString;
                          types.ServerAddress := EmptyString;
                          types.IdentityToken := EmptyString;
                          types.RegistryToken := EmptyString |} ]} |}
    "quay.io/acme/app:1.0"
  = types.AuthConfig_zero
  /\ (run (scripted [])
        (pushImage (fun s => json.quoted s) spec_parseImageOptions
           spec_normalizeRegistryAddress (fun _ => None)
           {| Configs := {[ "https://registry.hub.docker.com" :=
                              {| types.Username := "alice"; types.Password := "secret";
                                 types.Auth := EmptyString; types.Email := EmptyString;
                                 types.ServerAddress := EmptyString;
                                 types.IdentityToken := EmptyString;
                                 types.RegistryToken := EmptyString |} ]} |}
           "quay.io/acme/app:1.0" (process_of ∅)) []).2
     = [EvPush "quay.io/acme/app:1.0" {| types.RegistryAuth := "e30=" |}].
Proof.
  apply (push_without_entry_is_anonymous (fun s => json.quoted s) spec_parseImageOptions
           spec_normalizeRegistryAddress (fun _ => None) (scripted [])).
  vm_compute; reflexivity.
Defined.

(** ** The default registry *)

(** When the manifest URL parses, a run starts with the initial request. *)
Lemma DeleteRun_starts url_Parse_error json_Unmarshal_TokenResponse parseAuthHeader
    w c registry image manifest username password past res tr :
  url_Parse_error (deleteURL registry image manifest) = None ->
  DeleteRun url_Parse_error json_Unmarshal_TokenResponse parseAuthHeader
    w c registry image manifest username password past res tr ->
  exists rest,
    tr = EvHttp c (initialRequest registry image manifest username password) :: rest.
Proof. intros Hurl HD. inversion HD; subst; eauto; congruence. Qed.

(** C7. For a name in which the parser finds no registry, the delete runs
    the removal against [registry.hub.docker.com], on the repository with
    [library/] put before a single segment, with the credentials the table
    holds under the scheme-qualified address
    [https://registry.hub.docker.com]: that is its [removeRegistryImage]
    call, and when the manifest URL parses its first request is the DELETE
    of that manifest with those credentials.  The delete of
    [registry.hub.docker.com/library/consul] runs the removal the delete of
    [consul] runs, and the push of either takes the table entry under that
    same address and hands it to the engine. *)
Theorem default_registry_normalization (authConfig : AuthConfigs) (image : string) :
  Registry (spec_parseImageOptions image) = EmptyString ->
  Registry (deleteOptions spec_parseImageOptions image) = "registry.hub.docker.com"
  /\ Repository (deleteOptions spec_parseImageOptions image)
     = (if strings.Contains (Repository (spec_parseImageOptions image)) "/"
        then Repository (spec_parseImageOptions image)
        else "library/" +:+ Repository (spec_parseImageOptions image))
  /\ spec_normalizeRegistryAddress (Registry (deleteOptions spec_parseImageOptions image))
     = "https://registry.hub.docker.com"
  /\ deleteCredentials spec_normalizeRegistryAddress authConfig
       (deleteOptions spec_parseImageOptions image)
     = credentialsAt authConfig "https://registry.hub.docker.com"
  /\ deleteOptions spec_parseImageOptions "consul"
     = deleteOptions spec_parseImageOptions "registry.hub.docker.com/library/consul"
  /\ Repository (deleteOptions spec_parseImageOptions "consul") = "library/consul"
  /\ deleteCredentials spec_normalizeRegistryAddress authConfig
       (deleteOptions spec_parseImageOptions "consul")
     = deleteCredentials spec_normalizeRegistryAddress authConfig
         (deleteOptions spec_parseImageOptions "registry.hub.docker.com/library/consul")
  /\ pushAuth spec_parseImageOptions spec_normalizeRegistryAddress authConfig "consul"
     = pushAuth spec_parseImageOptions spec_normalizeRegistryAddress authConfig
         "registry.hub.docker.com/library/consul"
  /\ (forall url_Parse_error json_Unmarshal_TokenResponse parseAuthHeader w meta p past
        digest keep id,
        (run w (resourceDockerRegistryImageDelete url_Parse_error
                  json_Unmarshal_TokenResponse spec_parseImageOptions
                  spec_normalizeRegistryAddress parseAuthHeader
                  {| name := "consul"; sha256_digest := digest; keep_remote := keep;
                     Id := id |} meta p) past).2
        = (run w (resourceDockerRegistryImageDelete url_Parse_error
                    json_Unmarshal_TokenResponse spec_parseImageOptions
                    spec_normalizeRegistryAddress parseAuthHeader
                    {| name := "registry.hub.docker.com/library/consul";
                       sha256_digest := digest; keep_remote := keep; Id := id |}
                    meta p) past).2)
  /\ (forall url_Parse_error json_Unmarshal_TokenResponse parseAuthHeader w p past
        digest id,
        run w (resourceDockerRegistryImageDelete url_Parse_error
                 json_Unmarshal_TokenResponse spec_parseImageOptions
                 spec_normalizeRegistryAddress parseAuthHeader
                 {| name := image; sha256_digest := digest; keep_remote := false;
                    Id := id |}
                 {| AuthConfigs_ := authConfig |} p) past
        = removalOutcome
            {| name := image; sha256_digest := digest; keep_remote := false; Id := id |}
            (run w (removeRegistryImage url_Parse_error json_Unmarshal_TokenResponse
                      parseAuthHeader
                      "registry.hub.docker.com"
                      (if strings.Contains (Repository (spec_parseImageOptions image)) "/"
                       then Repository (spec_parseImageOptions image)
                       else "library/" +:+ Repository (spec_parseImageOptions image))
                      digest
                      (credentialsAt authConfig "https://registry.hub.docker.com").1
                      (credentialsAt authConfig "https://registry.hub.docker.com").2
                      p) past))
  /\ (forall url_Parse_error json_Unmarshal_TokenResponse parseAuthHeader w p past
        digest id,
        run w (resourceDockerRegistryImageDelete url_Parse_error
                 json_Unmarshal_TokenResponse spec_parseImageOptions
                 spec_normalizeRegistryAddress parseAuthHeader
                 {| name := "registry.hub.docker.com/library/consul";
                    sha256_digest := digest; keep_remote := false; Id := id |}
                 {| AuthConfigs_ := authConfig |} p) past
        = removalOutcome
            {| name := "registry.hub.docker.com/library/consul";
               sha256_digest := digest; keep_remote := false; Id := id |}
            (run w (removeRegistryImage url_Parse_error json_Unmarshal_TokenResponse
                      parseAuthHeader
                      "registry.hub.docker.com" "library/consul" digest
                      (credentialsAt authConfig "https://registry.hub.docker.com").1
                      (credentialsAt authConfig "https://registry.hub.docker.com").2
                      p) past))
  /\ (forall url_Parse_error json_Unmarshal_TokenResponse parseAuthHeader w p past
        digest id,
        url_Parse_error
          ("https://registry.hub.docker.com/v2/"
           +:+ (if strings.Contains (Repository (spec_parseImageOptions image)) "/"
                then Repository (spec_parseImageOptions image)
                else "library/" +:+ Repository (spec_parseImageOptions image))
           +:+ "/manifests/" +:+ digest) = None ->
        exists req rest,
          (run w (resourceDockerRegistryImageDelete url_Parse_error
                    json_Unmarshal_TokenResponse spec_parseImageOptions
                    spec_normalizeRegistryAddress parseAuthHeader
                    {| name := image; sha256_digest := digest; keep_remote := false;
                       Id := id |}
                    {| AuthConfigs_ := authConfig |} p) past).2
          = EvHttp (chosenClient p) req :: rest
          /\ http.Method req = "DELETE"
          /\ http.URL req
             = "https://registry.hub.docker.com/v2/"
               +:+ (if strings.Contains (Repository (spec_parseImageOptions image)) "/"
                    then Repository (spec_parseImageOptions image)
                    else "library/" +:+ Repository (spec_parseImageOptions image))
               +:+ "/manifests/" +:+ digest
          /\ http.ReqHeader req !! "Authorization"
             = expectedAuthorization
                 (credentialsAt authConfig "https://registry.hub.docker.com").1
                 (credentialsAt authConfig "https://registry.hub.docker.com").2)
  /\ pushAuth spec_parseImageOptions spec_normalizeRegistryAddress authConfig image
     = default types.AuthConfig_zero
         (Configs authConfig !! "https://registry.hub.docker.com")
  /\ pushAuth spec_parseImageOptions spec_normalizeRegistryAddress authConfig
       "registry.hub.docker.com/library/consul"
     = default types.AuthConfig_zero
         (Configs authConfig !! "https://registry.hub.docker.com")
  /\ (forall json_encodeString processStreamingOutput w p past,
        exists encodedJSON,
          json.Marshal_AuthConfig json_encodeString
            (default types.AuthConfig_zero
               (Configs authConfig !! "https://registry.hub.docker.com"))
          = Ok encodedJSON
          /\ (run w (pushImage json_encodeString spec_parseImageOptions
                       spec_normalizeRegistryAddress processStreamingOutput
                       authConfig image p) past).2
             = [EvPush image
                  {| types.RegistryAuth :=
                       base64.URLEncoding_EncodeToString encodedJSON |}]).
Proof.
  intros Hreg.
  destruct (deleteOptions_without_registry spec_parseImageOptions image Hreg)
    as [Hhub Hrepo].
  assert (Hsame : deleteOptions spec_parseImageOptions "consul"
                  = deleteOptions spec_parseImageOptions
                      "registry.hub.docker.com/library/consul") by reflexivity.
  assert (Hcred : deleteCredentials spec_normalizeRegistryAddress authConfig
                    (deleteOptions spec_parseImageOptions image)
                  = credentialsAt authConfig "https://registry.hub.docker.com")
    by (by rewrite deleteCredentials_key, Hhub).
  assert (Hpush : pushAuth spec_parseImageOptions spec_normalizeRegistryAddress
                    authConfig image
                  = default types.AuthConfig_zero
                      (Configs authConfig !! "https://registry.hub.docker.com")).
  { unfold pushAuth. rewrite Hreg. simpl. by case_match. }
  assert (Hdelete : forall U J pah w p past digest id,
             run w (resourceDockerRegistryImageDelete U J spec_parseImageOptions
                      spec_normalizeRegistryAddress pah
                      {| name := image; sha256_digest := digest; keep_remote := false;
                         Id := id |}
                      {| AuthConfigs_ := authConfig |} p) past
             = removalOutcome
                 {| name := image; sha256_digest := digest; keep_remote := false;
                    Id := id |}
                 (run w (removeRegistryImage U J pah "registry.hub.docker.com"
                           (if strings.Contains
                                 (Repository (spec_parseImageOptions image)) "/"
                            then Repository (spec_parseImageOptions image)
                            else "library/" +:+ Repository (spec_parseImageOptions image))
                           digest
                           (credentialsAt authConfig "https://registry.hub.docker.com").1
                           (credentialsAt authConfig "https://registry.hub.docker.com").2
                           p) past)).
  { intros U J pah w p past digest id.
    rewrite (delete_run U J spec_parseImageOptions spec_normalizeRegistryAddress pah)
      by done.
    cbn [name sha256_digest AuthConfigs_]. by rewrite Hcred, Hhub, Hrepo. }
  split; [done|]. split; [done|].
  split; [by rewrite Hhub|].
  split; [done|].
  split; [done|]. split; [done|].
  split; [by rewrite Hsame|].
  split; [unfold pushAuth; simpl; by case_match|].
  split.
  { intros U J pah w meta p past digest [|] id.
    + done.
    + rewrite !delete_requests by done. simpl name. by rewrite Hsame. }
  split; [exact Hdelete|].
  split.
  { intros U J pah w p past digest id.
    rewrite (delete_run U J spec_parseImageOptions spec_normalizeRegistryAddress pah)
      by done.
    reflexivity. }
  split.
  { intros U J pah w p past digest id Hurl.
    rewrite Hdelete. unfold removalOutcome. cbn [snd].
    destruct (removeRegistryImage_cases U J pah w p "registry.hub.docker.com"
                (if strings.Contains (Repository (spec_parseImageOptions image)) "/"
                 then Repository (spec_parseImageOptions image)
                 else "library/" +:+ Repository (spec_parseImageOptions image))
                digest
                (credentialsAt authConfig "https://registry.hub.docker.com").1
                (credentialsAt authConfig "https://registry.hub.docker.com").2 past)
      as (res & tr & Hrun & HD).
    rewrite Hrun. cbn [snd].
    apply DeleteRun_starts in HD as [rest ->]; [|exact Hurl].
    eexists _, rest. split; [reflexivity|].
    unfold initialRequest.
    rewrite withCredentials_Method, withCredentials_URL.
    split; [done|]. split; [done|].
    apply withCredentials_Header. }
  split; [exact Hpush|].
  split; [unfold pushAuth; simpl; by case_match|].
  intros enc pso w p past.
  eexists. split; [reflexivity|].
  unfold pushImage. rewrite Hpush. cbn [json.Marshal_AuthConfig]. unfold_M.
  cbn [run Prog_bind fst snd].
  by destruct (enginePush w past image _).
Qed.

Lemma default_registry_normalization_witness :
  run (scripted [response 404 "404 Not Found" None EmptyString])
    (resourceDockerRegistryImageDelete every_url_parses token_is_body
       spec_parseImageOptions spec_normalizeRegistryAddress hub_challenge
       {| name := "consul"; sha256_digest := "sha256:0a"; keep_remote := false;
          Id := "sha256:0a" |}
       {| AuthConfigs_ :=
            {| Configs := {[ "https://registry.hub.docker.com" :=
                               {| types.Username := "alice"; types.Password := "secret";
                                  types.Auth := EmptyString; types.Email := EmptyString;
                                  types.ServerAddress := EmptyString;
                                  types.IdentityToken := EmptyString;
                                  types.RegistryToken := EmptyString |} ]} |} |}
       (process_of ∅)) []
  = (((None,
       {| name := "consul"; sha256_digest := "sha256:0a"; keep_remote := false;
          Id := EmptyString |}),
      process_of ∅),
     [EvHttp strictClient
        {| http.Method := "DELETE";
           http.URL := "https://registry.hub.docker.com/v2/library/consul/manifests/sha256:0a";
           http.ReqHeader := {[ "Authorization" := ["Basic YWxpY2U6c2VjcmV0"] ]} |}])
  /\ types.Username
       (pushAuth spec_parseImageOptions spec_normalizeRegistryAddress
          {| Configs := {[ "https://registry.hub.docker.com" :=
                             {| types.Username := "alice"; types.Password := "secret";
                                types.Auth := EmptyString; types.Email := EmptyString;
                                types.ServerAddress := EmptyString;
                                types.IdentityToken := EmptyString;
                                types.RegistryToken := EmptyString |} ]} |}
          "registry.hub.docker.com/library/consul")
     = "alice".
Proof.
  pose proof (default_registry_normalization
                {| Configs := {[ "https://registry.hub.docker.com" :=
                                   {| types.Username := "alice"; types.Password := "secret";
                                      types.Auth := EmptyString; types.Email := EmptyString;
                                      types.ServerAddress := EmptyString;
                                      types.IdentityToken := EmptyString;
                                      types.RegistryToken := EmptyString |} ]} |}
                "consul" eq_refl)
    as (_ & _ & _ & _ & _ & _ & _ & _ & _ & Hdelete & _ & _ & _ & Hqualified & _).
  split.
  - rewrite Hdelete. vm_compute. reflexivity.
  - rewrite Hqualified. vm_compute. reflexivity.
Defined.
